(** * skyway: the node map (src/skyway/nodemap.py)

    A shallow embedding of the [NodeMap] class: the in-memory registry
    [self.nodes] (an insertion-ordered Python dict), the lock, the three files
    touched by [dump_hosts], and the calls made on the database connector.
    Python exceptions are modelled as outcomes that keep the state reached so
    far, since a raised exception does not undo earlier mutations. *)

From Stdlib Require Import String Ascii List Bool ZArith Lia.
Import ListNotations.
Open Scope string_scope.

(** ** Python values and strings *)

(** The value stored under the key ['start']: [rebuild] writes the integer
    [0], [power_on] and [power_off] write strings. *)
Inductive pyval : Type :=
| PyInt (z : Z)
| PyStr (s : string).

(** Python [==] between two such values: an [int] never equals a [str]. *)
Definition py_eqb (a b : pyval) : bool :=
  match a, b with
  | PyInt x, PyInt y => Z.eqb x y
  | PyStr x, PyStr y => String.eqb x y
  | _, _ => false
  end.

Module Str.

(** The one-character string made of [c]. *)
Definition of_char (c : ascii) : string := String c EmptyString.

Definition newline : string := of_char "010"%char.

(** [s.split(c)] for a one-character separator: never the empty list. *)
Fixpoint split (c : ascii) (s : string) : list string :=
  match s with
  | EmptyString => [EmptyString]
  | String a r =>
      if Ascii.eqb a c then EmptyString :: split c r
      else match split c r with
           | [] => [String a EmptyString]
           | w :: ws => String a w :: ws
           end
  end.

(** [sep.join(l)]. *)
Fixpoint join (sep : string) (l : list string) : string :=
  match l with
  | [] => EmptyString
  | [x] => x
  | x :: xs => x ++ sep ++ join sep xs
  end.

(** [c not in s]. *)
Fixpoint lacks (c : ascii) (s : string) : bool :=
  match s with
  | EmptyString => true
  | String a r => negb (Ascii.eqb a c) && lacks c r
  end.

End Str.

(** ** Rows *)

(** A node: the dict literal built in [rebuild], whose keys never change
    afterwards ([update] only overwrites ['instance'], ['ip'], ['start']). *)
Record node : Type := mk_node {
  host : string;
  cloud : string;
  type : string;
  account : string;
  instance : string;
  ip : string;
  start : pyval
}.

(** The row [power_off] sends to the journal: a copy of the node with
    ['end'] added and ['ip'] deleted. *)
Record journal_entry : Type := mk_journal {
  j_host : string;
  j_cloud : string;
  j_type : string;
  j_account : string;
  j_instance : string;
  j_start : pyval;
  j_end : string
}.

(** The keyword arguments both callers of [update] pass. *)
Record kwargs : Type := mk_kwargs {
  kw_instance : string;
  kw_ip : string;
  kw_start : pyval
}.

(** ** The dict [self.nodes] *)

Module Dict.

(** Python dicts keep insertion order; [dump_hosts], [power_off] and
    [rebuild] iterate in that order. *)
Definition t : Type := list (string * node).

Definition keys (d : t) : list string := map fst d.

(** [d.get(k)] *)
Fixpoint get (k : string) (d : t) : option node :=
  match d with
  | [] => None
  | (k', v) :: r => if String.eqb k' k then Some v else get k r
  end.

(** [k in d] *)
Definition mem (k : string) (d : t) : bool :=
  match get k d with Some _ => true | None => false end.

(** [d[k] = v]: an existing key keeps its position, a new one goes last. *)
Fixpoint set (k : string) (v : node) (d : t) : t :=
  match d with
  | [] => [(k, v)]
  | (k', v') :: r =>
      if String.eqb k' k then (k, v) :: r else (k', v') :: set k v r
  end.

(** [del d[k]] for a key that is present: no entry under [k] is left. *)
Fixpoint del (k : string) (d : t) : t :=
  match d with
  | [] => []
  | (k', v') :: r => if String.eqb k' k then del k r else (k', v') :: del k r
  end.

End Dict.

(** ** The database connector

    [DBConnector] is not part of the sources ([from .db import DBConnector] is
    commented out), so the connector is taken as a collaborator whose calls
    are recorded in order. *)

Inductive row : Type :=
| NodeRow (n : node)
| JournalRow (j : journal_entry).

Inductive db_call : Type :=
| update_one (table key keyval : string) (kw : kwargs)
| insert_one (table : string) (r : row)
| remove_one (table key keyval : string).

(** ** The object and its environment *)

Record file : Type := mk_file {
  writable : bool;          (* [open(path, 'w')] succeeds *)
  content : string
}.

(** What taking the lock meets: [open(self.lock_file, 'w+')] may raise
    [OSError], and so may [fcntl.lockf] on the file just opened. *)
Inductive lock_outcome : Type :=
| lock_granted
| open_fails
| lockf_fails.

(** [self.__lock]: [None], an open file without the lock, or an open file
    holding the lock. *)
Inductive lock_state : Type :=
| Unset
| Opened
| Locked.

Record NodeMap : Type := mk_NodeMap {
  lock_file : option string;      (* the class attribute [NodeMap.lock_file] *)
  lock_env : lock_outcome;        (* what [open] and [lockf] do on that path *)
  __lock : lock_state;            (* [self.__lock] *)
  nodes : Dict.t;                 (* [self.nodes] *)
  db : option (list db_call);     (* [self.db]; [None]: the attribute is unset *)
  hosts_base : option string;     (* the file [hosts-base]; [None]: unreadable *)
  etc_hosts : file;               (* [/etc/hosts] *)
  etc_netgroup : file             (* [/etc/netgroup] *)
}.

Definition with_lock (b : lock_state) (s : NodeMap) : NodeMap :=
  mk_NodeMap (lock_file s) (lock_env s) b (nodes s) (db s) (hosts_base s)
             (etc_hosts s) (etc_netgroup s).

Definition with_nodes (d : Dict.t) (s : NodeMap) : NodeMap :=
  mk_NodeMap (lock_file s) (lock_env s) (__lock s) d (db s) (hosts_base s)
             (etc_hosts s) (etc_netgroup s).

Definition with_db (l : list db_call) (s : NodeMap) : NodeMap :=
  mk_NodeMap (lock_file s) (lock_env s) (__lock s) (nodes s) (Some l) (hosts_base s)
             (etc_hosts s) (etc_netgroup s).

Definition with_etc_hosts (f : file) (s : NodeMap) : NodeMap :=
  mk_NodeMap (lock_file s) (lock_env s) (__lock s) (nodes s) (db s) (hosts_base s)
             f (etc_netgroup s).

Definition with_etc_netgroup (f : file) (s : NodeMap) : NodeMap :=
  mk_NodeMap (lock_file s) (lock_env s) (__lock s) (nodes s) (db s) (hosts_base s)
             (etc_hosts s) f.

(** ** Exceptions and the state monad *)

Inductive exn : Type :=
| KeyError | AttributeError | NameError | IndexError | TypeError | OSError.

Inductive outcome (A : Type) : Type :=
| Return (a : A)
| Raise (e : exn).
Arguments Return {A} a.
Arguments Raise {A} e.

Definition M (A : Type) : Type := NodeMap -> outcome A * NodeMap.

Definition ret {A} (a : A) : M A := fun s => (Return a, s).

Definition raise {A} (e : exn) : M A := fun s => (Raise e, s).

Definition bind {A B} (c : M A) (k : A -> M B) : M B :=
  fun s =>
    match c s with
    | (Return a, s') => k a s'
    | (Raise e, s') => (Raise e, s')
    end.

Definition gets {A} (f : NodeMap -> A) : M A := fun s => (Return (f s), s).

Definition modify (f : NodeMap -> NodeMap) : M unit := fun s => (Return tt, f s).

Declare Scope py_scope.
Delimit Scope py_scope with py.
Notation "x <- c ;; k" := (bind c (fun x => k))
  (at level 61, c at next level, right associativity) : py_scope.
Notation "c ;; k" := (bind c (fun _ => k))
  (at level 61, right associativity) : py_scope.
Open Scope py_scope.

(** [for x in l: body x] *)
Fixpoint for_each {A} (l : list A) (body : A -> M unit) : M unit :=
  match l with
  | [] => ret tt
  | x :: r => body x ;; for_each r body
  end.

(** A method call on [self.db]: reading the attribute raises when it was never
    assigned, otherwise the call is recorded. *)
Definition db_do (c : db_call) : M unit :=
  fun s =>
    match db s with
    | None => (Raise AttributeError, s)
    | Some l => (Return tt, with_db (l ++ [c]) s)
    end.

(** [self.nodes[host]] *)
Definition getitem (h : string) : M node :=
  fun s =>
    match Dict.get h (nodes s) with
    | Some n => (Return n, s)
    | None => (Raise KeyError, s)
    end.

(** ** The methods of [NodeMap] *)

(** [__init__]: no lock, an empty dict, and no [db] attribute (its assignment
    is commented out). The class attribute and the files are the caller's. *)
Definition init (lf : option string) (env : lock_outcome)
    (base : option string) (hosts netgroup : file) : NodeMap :=
  mk_NodeMap lf env Unset [] None base hosts netgroup.

(** [lock]: [self.__lock = open(self.lock_file, 'w+')] then
    [fcntl.lockf(self.__lock, LOCK_EX)]. [open(None, 'w+')] is a [TypeError];
    when [open] raises, [self.__lock] keeps its value; when [lockf] raises,
    [self.__lock] is the file just opened, without the lock. *)
Definition lock : M unit :=
  fun s =>
    match lock_file s with
    | None => (Raise TypeError, s)
    | Some _ =>
        match lock_env s with
        | open_fails => (Raise OSError, s)
        | lockf_fails => (Raise OSError, with_lock Opened s)
        | lock_granted => (Return tt, with_lock Locked s)
        end
    end.

(** [unlock]: [self.__lock.close()] then [self.__lock = None]; closing the
    file gives the lock up. [None.close()] is an [AttributeError]. *)
Definition unlock : M unit :=
  fun s =>
    match __lock s with
    | Unset => (Raise AttributeError, s)
    | _ => (Return tt, with_lock Unset s)
    end.

Definition read_hosts_base : M string :=
  fun s =>
    match hosts_base s with
    | Some c => (Return c, s)
    | None => (Raise OSError, s)
    end.

(** [with open(path, 'w') as f: f.write(text)] *)
Definition write_file (get : NodeMap -> file)
    (put : file -> NodeMap -> NodeMap) (text : string) : M unit :=
  fun s =>
    if writable (get s) then (Return tt, put (mk_file true text) s)
    else (Raise OSError, s).

(** One line of [/etc/hosts]:
    [' '.join(['1.2.3.4' if node['ip']=='' else node['ip'], host])]. *)
Definition hosts_line (e : string * node) : string :=
  Str.join " " [if String.eqb (ip (snd e)) "" then "1.2.3.4" else ip (snd e);
                fst e].

Definition hosts_text (base : string) (d : Dict.t) : string :=
  base ++ Str.join Str.newline (map hosts_line d) ++ Str.newline.

Definition netgroup_text (d : Dict.t) : string :=
  "skyway    "
  ++ Str.join " "
       (map (fun e => "(" ++ ip (snd e) ++ ",,)")
            (filter (fun e => negb (String.eqb (ip (snd e)) "")) d))
  ++ Str.newline.

Definition dump_hosts : M unit :=
  lock ;;
  hostsbase <- read_hosts_base ;;
  d <- gets nodes ;;
  write_file etc_hosts with_etc_hosts (hosts_text hostsbase d) ;;
  write_file etc_netgroup with_etc_netgroup (netgroup_text d) ;;
  unlock.

Definition apply_kwargs (kw : kwargs) (n : node) : node :=
  mk_node (host n) (cloud n) (type n) (account n)
          (kw_instance kw) (kw_ip kw) (kw_start kw).

(** [update]: the item assignments on [self.nodes[host]] come first and raise
    [KeyError] for an unknown host; the connector is reached afterwards. *)
Definition update (h : string) (kw : kwargs) : M unit :=
  n <- getitem h ;;
  modify (fun s => with_nodes (Dict.set h (apply_kwargs kw n) (nodes s)) s) ;;
  db_do (update_one "node_map" "host" h kw).

Definition has_node (name : string) : M bool :=
  n <- getitem name ;;
  ret (negb (String.eqb (instance n) "")).

(** [power_on]; [now] is the string [NodeMap.tsnow()] returns. *)
Definition power_on (h inst addr now : string) : M unit :=
  update h (mk_kwargs inst addr (PyStr now)) ;;
  dump_hosts.

(** The scan of [power_off]: the first host whose node has this cloud and
    this instance. *)
Fixpoint find_host (c i : string) (d : Dict.t) : option string :=
  match d with
  | [] => None
  | (hostname, n) :: r =>
      if String.eqb (cloud n) c && String.eqb (instance n) i then Some hostname
      else find_host c i r
  end.

Definition resolve_host (h : string) (c i : option string) (d : Dict.t)
    : string :=
  match c, i with
  | Some c', Some i' =>
      match find_host c' i' d with Some hostname => hostname | None => h end
  | _, _ => h
  end.

Definition journal_of (n : node) (now : string) : journal_entry :=
  mk_journal (host n) (cloud n) (type n) (account n) (instance n) (start n) now.

Definition power_off (h : string) (c i : option string) (now : string)
    : M string :=
  d <- gets nodes ;;
  let h' := resolve_host h c i d in
  if String.eqb h' "" || negb (Dict.mem h' d) then ret ""
  else
    n <- getitem h' ;;
    update h' (mk_kwargs "" "" (PyStr "0")) ;;
    db_do (insert_one "node_journal" (JournalRow (journal_of n now))) ;;
    dump_hosts ;;
    ret (instance n).

(** [host in nodes] for the argument of [rebuild]. *)
Definition listed (h : string) (new_nodes : list string) : bool :=
  existsb (String.eqb h) new_nodes.

(** The first loop of [rebuild]. Its error branch formats a message with
    the variable [name], which is bound nowhere: evaluating it raises
    [NameError] before any string is built or returned. *)
Fixpoint scan_removed (new_nodes : list string) (d : Dict.t)
    (removed : list string) : outcome (list string) :=
  match d with
  | [] => Return removed
  | (h, n) :: r =>
      if negb (listed h new_nodes) then
        if negb (String.eqb (instance n) "") then Raise NameError
        else scan_removed new_nodes r (removed ++ [h])
      else scan_removed new_nodes r removed
  end.

(** [w[i]] *)
Definition index (w : list string) (i : nat) : M string :=
  match nth_error w i with
  | Some x => ret x
  | None => raise IndexError
  end.

(** The dict literal of [rebuild], its items evaluated in source order. *)
Definition new_node (h : string) : M node :=
  let w := Str.split "-" h in
  c <- index w 1 ;;
  t <- index w 2 ;;
  a0 <- index w 0 ;;
  a1 <- index w 1 ;;
  ret (mk_node h c t (a0 ++ "-" ++ a1) "" "" (PyInt 0)).

Definition remove_host (h : string) : M unit :=
  modify (fun s => with_nodes (Dict.del h (nodes s)) s) ;;
  db_do (remove_one "node_map" "host" h).

Definition add_host (h : string) : M unit :=
  d <- gets nodes ;;
  if Dict.mem h d then ret tt
  else
    n <- new_node h ;;
    modify (fun s => with_nodes (Dict.set h n (nodes s)) s) ;;
    db_do (insert_one "node_map" (NodeRow n)).

Definition rebuild (new_nodes : list string) : M unit :=
  d <- gets nodes ;;
  removed <- (fun s => (scan_removed new_nodes d [], s)) ;;
  for_each removed remove_host ;;
  for_each new_nodes add_host.

(** ** Predicates used by the statements *)

(** Invariant I1 of the data model, with Python's [==] on the start field:
    instance empty, ip empty and [start == 0] all agree. *)
Definition I1 (n : node) : Prop :=
  (instance n = "" <-> ip n = "")
  /\ (ip n = "" <-> py_eqb (start n) (PyInt 0) = true).

(** The environment lets [dump_hosts] run to its end. *)
Definition usable (s : NodeMap) : Prop :=
  lock_file s <> None /\ lock_env s = lock_granted /\ hosts_base s <> None
  /\ writable (etc_hosts s) = true /\ writable (etc_netgroup s) = true.

(** Host names and addresses that fit on one line of [/etc/hosts]. *)
Definition one_line (e : string * node) : bool :=
  Str.lacks "010"%char (fst e) && Str.lacks "010"%char (ip (snd e)).

(** What the dict literal of [rebuild] holds for a host name with at least
    three hyphen-separated segments. *)
Definition parsed (h : string) (n : node) : Prop :=
  exists w0 w1 w2 rest,
    Str.split "-" h = w0 :: w1 :: w2 :: rest
    /\ n = mk_node h w1 w2 (w0 ++ "-" ++ w1) "" "" (PyInt 0).

(** Lock and files are what they were: only the dict and the connector log
    may differ. *)
Definition same_env (s s' : NodeMap) : Prop :=
  lock_file s' = lock_file s /\ lock_env s' = lock_env s
  /\ __lock s' = __lock s
  /\ hosts_base s' = hosts_base s
  /\ etc_hosts s' = etc_hosts s /\ etc_netgroup s' = etc_netgroup s.

(** The netgroup tuple of a node. *)
Definition netgroup_tuple (e : string * node) : string :=
  "(" ++ ip (snd e) ++ ",,)".

(** ** Sample states *)

Module Sample.

Definition rw : file := mk_file true "".

Definition a_on : node :=
  mk_node "a" "aws" "t1" "rcc-aws" "i-1" "10.0.0.1" (PyStr "1700000000").

Definition b_off : node :=
  mk_node "b" "aws" "t1" "rcc-aws" "" "" (PyInt 0).

Definition c_off : node :=
  mk_node "rcc-aws-t1" "aws" "t1" "rcc-aws" "" "" (PyInt 0).

(** A map with a connector, a lock file and usable files. *)
Definition ready (d : Dict.t) : NodeMap :=
  mk_NodeMap (Some "/var/lock/skyway") lock_granted Unset d (Some [])
             (Some ("127.0.0.1 localhost" ++ Str.newline)) rw rw.

(** The map as [__init__] leaves it, with usable files. *)
Definition fresh : NodeMap :=
  init (Some "/var/lock/skyway") lock_granted
       (Some ("127.0.0.1 localhost" ++ Str.newline)) rw rw.

End Sample.

(** ** Running the monad *)

Lemma bind_return {A B} (c : M A) (k : A -> M B) s a s' :
  c s = (Return a, s') -> bind c k s = k a s'.
Proof. intros H. unfold bind. now rewrite H. Qed.

Lemma bind_raise {A B} (c : M A) (k : A -> M B) s e s' :
  c s = (Raise e, s') -> bind c k s = (Raise e, s').
Proof. intros H. unfold bind. now rewrite H. Qed.

(** ** Facts about the dict *)

Lemma mem_get_none k d : Dict.mem k d = false <-> Dict.get k d = None.
Proof.
  unfold Dict.mem. destruct (Dict.get k d); split; congruence.
Qed.

Lemma mem_get_some k d : Dict.mem k d = true <-> exists n, Dict.get k d = Some n.
Proof.
  unfold Dict.mem. destruct (Dict.get k d) as [n|]; split; try congruence.
  - intros _. now exists n.
  - intros [n H]. discriminate.
Qed.

Lemma mem_in_keys k d : Dict.mem k d = true <-> In k (Dict.keys d).
Proof.
  rewrite mem_get_some. induction d as [|[k' v] r IH]; simpl.
  - split; [intros [n H]; discriminate | tauto].
  - destruct (String.eqb_spec k' k) as [->|Hne].
    + split; [now left | intros _; now exists v].
    + rewrite IH. split; [now right | intros [H|H]; [contradiction | exact H]].
Qed.

Lemma listed_in h l : listed h l = true <-> In h l.
Proof.
  unfold listed. rewrite existsb_exists. split.
  - intros [x [Hin Heq]]. apply String.eqb_eq in Heq. now subst.
  - intros H. exists h. split; [exact H | apply String.eqb_refl].
Qed.

(** ** The first loop of [rebuild] *)

Lemma scan_removed_live new_nodes d : forall acc h n,
  In (h, n) d -> listed h new_nodes = false -> instance n <> "" ->
  scan_removed new_nodes d acc = Raise NameError.
Proof.
  induction d as [|[k v] r IH]; intros acc h n Hin Hl Hon; [destruct Hin|].
  simpl. destruct Hin as [[= -> ->]|Hin].
  - rewrite Hl. simpl. destruct (String.eqb_spec (instance n) ""); [contradiction | reflexivity].
  - destruct (listed k new_nodes); simpl; [now apply (IH _ h n)|].
    destruct (String.eqb (instance v) ""); simpl; [now apply (IH _ h n) | reflexivity].
Qed.

(** ** C7: [power_off] on an unknown host *)

(** C7. When [host=g] names no key of [self.nodes] and the [(cloud, instance)]
    pair, if both are given, matches no node, [power_off] returns the empty
    string and the whole state (registry, connector calls, lock, files) is
    what it was. *)
Theorem power_off_unknown_host s g c i now :
  Dict.mem g (nodes s) = false ->
  (forall c' i', c = Some c' -> i = Some i' -> find_host c' i' (nodes s) = None) ->
  power_off g c i now s = (Return "", s).
Proof.
  intros Hg Hscan. unfold power_off.
  rewrite (bind_return _ _ s (nodes s) s) by reflexivity.
  assert (resolve_host g c i (nodes s) = g) as ->.
  { unfold resolve_host. destruct c as [c'|], i as [i'|]; try reflexivity.
    now rewrite (Hscan c' i'). }
  rewrite Hg. simpl. rewrite orb_true_r. reflexivity.
Qed.

Lemma power_off_unknown_host_witness :
  power_off "ghost" None None "1700000000"
            (Sample.ready [("a", Sample.a_on); ("b", Sample.b_off)])
  = (Return "", Sample.ready [("a", Sample.a_on); ("b", Sample.b_off)]).
Proof.
  apply power_off_unknown_host; [reflexivity | intros c' i' H; discriminate H].
Defined.

(** ** C4: [rebuild] that would drop a live node *)

(** C4. When some current host is missing from the new list and its instance
    is not empty, [rebuild] leaves the state untouched, but it does not return
    an error value: building the message evaluates the unbound variable
    [name], so the call ends in [NameError]. *)
Theorem rebuild_live_removed_raises s new_nodes h n :
  In (h, n) (nodes s) -> listed h new_nodes = false -> instance n <> "" ->
  rebuild new_nodes s = (Raise NameError, s).
Proof.
  intros Hin Hl Hon. unfold rebuild.
  rewrite (bind_return _ _ s (nodes s) s) by reflexivity.
  apply bind_raise. now rewrite (scan_removed_live _ _ _ h n).
Qed.

Lemma rebuild_live_removed_raises_witness :
  rebuild [] (Sample.ready [("a", Sample.a_on)])
  = (Raise NameError, Sample.ready [("a", Sample.a_on)]).
Proof.
  apply (rebuild_live_removed_raises _ _ "a" Sample.a_on);
    [now left | reflexivity | discriminate].
Defined.

(** ** C10: the map without a connector *)

Section NoConnector.

Variable s : NodeMap.
Hypothesis no_db : db s = None.

Lemma update_unset_known h kw n :
Dict.get h (nodes s) = Some n ->
update h kw s
= (Raise AttributeError,
   with_nodes (Dict.set h (apply_kwargs kw n) (nodes s)) s).
Proof.
intros Hget. unfold update, bind, getitem, modify, db_do.
rewrite Hget. simpl. now rewrite no_db.
Qed.

Lemma update_unknown h kw :
  Dict.get h (nodes s) = None -> update h kw s = (Raise KeyError, s).
Proof.
  intros Hget. unfold update, bind, getitem. now rewrite Hget.
Qed.

End NoConnector.

Lemma remove_loop_unset removed : forall s,
  db s = None ->
  for_each removed remove_host s = (Return tt, s)
  \/ fst (for_each removed remove_host s) = Raise AttributeError.
Proof.
  destruct removed as [|h r]; intros s Hdb; [now left|].
  right. simpl. unfold bind, remove_host, bind, modify, db_do. simpl.
  now rewrite Hdb.
Qed.

Lemma add_loop_unset new_nodes : forall s,
  db s = None ->
  snd (for_each new_nodes add_host s) = s
  \/ fst (for_each new_nodes add_host s) = Raise AttributeError.
Proof.
  induction new_nodes as [|h r IH]; intros s Hdb; [now left|].
  simpl for_each.
  destruct (add_host h s) as [[[]|e] s1] eqn:Hadd.
  - (* the body returned: the host was already present *)
    rewrite (bind_return _ _ _ _ _ Hadd).
    assert (s1 = s) as ->; [|now apply IH].
    revert Hadd. unfold add_host, bind, gets, new_node, index, bind, modify, db_do.
    destruct (Dict.mem h (nodes s)); [now intros [= <-]|].
    destruct (nth_error _ 1); [|discriminate].
    destruct (nth_error _ 2); [|discriminate].
    destruct (nth_error _ 0); [|discriminate].
    simpl. now rewrite Hdb.
  - rewrite (bind_raise _ _ _ _ _ Hadd). simpl.
    revert Hadd. unfold add_host, bind, gets, new_node, index, bind, modify, db_do, raise.
    destruct (Dict.mem h (nodes s)); [discriminate|].
    destruct (nth_error _ 1); [|intros [= <- <-]; now left].
    destruct (nth_error _ 2); [|intros [= <- <-]; now left].
    destruct (nth_error _ 0); [|intros [= <- <-]; now left].
    simpl. rewrite Hdb. intros [= <- <-]. now right.
Qed.

(** C10. [__init__] leaves [self.db] unset. On any map in that condition:
    [update] and [power_on] never return (they raise [AttributeError] at
    the connector for a registered host, and [KeyError] before it for an
    unknown one); [power_off] returns the empty string on its unknown-host
    path and raises [AttributeError] on every other path; and a [rebuild]
    that changes [self.nodes] raises [AttributeError]. *)
Theorem unset_connector_raises s :
  db s = None ->
  (forall lf env base hosts netgroup,
     db (init lf env base hosts netgroup) = None)
  /\ (forall h kw,
        fst (update h kw s)
        = Raise (if Dict.mem h (nodes s) then AttributeError else KeyError))
  /\ (forall h inst addr now,
        fst (power_on h inst addr now s)
        = Raise (if Dict.mem h (nodes s) then AttributeError else KeyError))
  /\ (forall h c i now,
        let h' := resolve_host h c i (nodes s) in
        if String.eqb h' "" || negb (Dict.mem h' (nodes s))
        then power_off h c i now s = (Return "", s)
        else fst (power_off h c i now s) = Raise AttributeError)
  /\ (forall new_nodes,
        nodes (snd (rebuild new_nodes s)) <> nodes s ->
        fst (rebuild new_nodes s) = Raise AttributeError).
Proof.
  intros Hdb. repeat split.
  - intros h kw. unfold Dict.mem.
    destruct (Dict.get h (nodes s)) as [n|] eqn:Hget.
    + now rewrite (update_unset_known s Hdb h kw n Hget).
    + now rewrite (update_unknown s h kw Hget).
  - intros h inst addr now. unfold power_on, bind, Dict.mem.
    destruct (Dict.get h (nodes s)) as [n|] eqn:Hget.
    + now rewrite (update_unset_known s Hdb h _ n Hget).
    + now rewrite (update_unknown s h _ Hget).
  - intros h c i now h'. unfold power_off.
    rewrite (bind_return _ _ s (nodes s) s) by reflexivity. fold h'.
    destruct (String.eqb h' "" || negb (Dict.mem h' (nodes s))) eqn:Hsoft;
      [reflexivity|].
    apply orb_false_elim in Hsoft as [_ Hmem].
    apply negb_false_iff, mem_get_some in Hmem as [n Hget].
    unfold bind, getitem. rewrite Hget.
    now rewrite (update_unset_known s Hdb h' _ n Hget).
  - intros new_nodes. unfold rebuild.
    rewrite (bind_return _ _ s (nodes s) s) by reflexivity.
    destruct (scan_removed new_nodes (nodes s) []) as [removed|e] eqn:Hscan.
    + rewrite (bind_return _ _ s removed s) by reflexivity.
      destruct (remove_loop_unset removed s Hdb) as [Hrm|Hrm].
      * rewrite (bind_return _ _ _ _ _ Hrm).
        destruct (add_loop_unset new_nodes s Hdb) as [Hadd|Hadd].
        -- rewrite Hadd. intros H. now contradiction H.
        -- intros _. exact Hadd.
      * destruct (for_each removed remove_host s) as [[[]|e] s1] eqn:Hloop;
          simpl in Hrm; [discriminate|]. injection Hrm as ->.
        now rewrite (bind_raise _ _ _ _ _ Hloop).
    + rewrite (bind_raise _ _ s e s) by reflexivity.
      intros H. now contradiction H.
Qed.

Lemma unset_connector_raises_witness :
  fst (update "a" (mk_kwargs "i-9" "10.0.0.9" (PyStr "1700000000"))
         (mk_NodeMap (Some "/var/lock/skyway") lock_granted Unset
                     [("a", Sample.a_on)] None
                     (Some "") Sample.rw Sample.rw))
  = Raise AttributeError.
Proof.
  exact (proj1 (proj2 (unset_connector_raises
    (mk_NodeMap (Some "/var/lock/skyway") lock_granted Unset
                     [("a", Sample.a_on)] None
                (Some "") Sample.rw Sample.rw) eq_refl)) "a" _).
Defined.

(** ** Splitting and joining *)

Lemma append_assoc (a b c : string) : (a ++ b) ++ c = a ++ b ++ c.
Proof. induction a as [|x r IH]; simpl; [reflexivity | now rewrite IH]. Qed.

Lemma split_not_nil c s : Str.split c s <> [].
Proof.
  destruct s as [|a r]; simpl; [discriminate|].
  destruct (Ascii.eqb a c); [discriminate|].
  destruct (Str.split c r); discriminate.
Qed.

(** Joining the pieces of a split with the separator gives the string back. *)
Lemma join_split c s : Str.join (Str.of_char c) (Str.split c s) = s.
Proof.
  induction s as [|a r IH]; [reflexivity|]. simpl Str.split.
  destruct (Ascii.eqb_spec a c) as [->|Hne].
  - pose proof (split_not_nil c r) as Hnil.
    destruct (Str.split c r) as [|w ws] eqn:Hs; [contradiction|].
    change (Str.join (Str.of_char c) ("" :: w :: ws))
      with ("" ++ Str.of_char c ++ Str.join (Str.of_char c) (w :: ws)).
    now rewrite IH.
  - pose proof (split_not_nil c r) as Hnil.
    destruct (Str.split c r) as [|w ws] eqn:Hs; [contradiction|].
    destruct ws as [|w' ws'].
    + simpl in *. now rewrite IH.
    + change (Str.join (Str.of_char c) (String a w :: w' :: ws'))
        with (String a (w ++ Str.of_char c ++ Str.join (Str.of_char c) (w' :: ws'))).
      change (Str.join (Str.of_char c) (w :: w' :: ws'))
        with (w ++ Str.of_char c ++ Str.join (Str.of_char c) (w' :: ws')) in IH.
      now rewrite IH.
Qed.

Lemma split_lacks c s : Str.lacks c s = true -> Str.split c s = [s].
Proof.
  induction s as [|a r IH]; simpl; [reflexivity|].
  intros H. apply andb_true_iff in H as [Ha Hr].
  apply negb_true_iff in Ha. rewrite Ha, (IH Hr). reflexivity.
Qed.

(** A separator in the middle starts a new piece. *)
Lemma split_app_sep c s t :
  Str.split c (s ++ String c t) = (Str.split c s ++ Str.split c t)%list.
Proof.
  induction s as [|a r IH]; simpl.
  - now rewrite Ascii.eqb_refl.
  - destruct (Ascii.eqb a c); [now rewrite IH|].
    rewrite IH. pose proof (split_not_nil c r) as Hnil.
    destruct (Str.split c r); [contradiction | reflexivity].
Qed.

(** Splitting a join of separator-free pieces gives the pieces back. *)
Lemma split_join c l :
  l <> [] -> Forall (fun x => Str.lacks c x = true) l ->
  Str.split c (Str.join (Str.of_char c) l) = l.
Proof.
  induction l as [|x r IH]; [congruence|]. intros _ Hall.
  inversion Hall as [|? ? Hx Hr]; subst.
  destruct r as [|y r'].
  - simpl. now apply split_lacks.
  - change (Str.join (Str.of_char c) (x :: y :: r'))
      with (x ++ String c (Str.join (Str.of_char c) (y :: r'))).
    rewrite split_app_sep, (split_lacks _ _ Hx), IH; [reflexivity | discriminate | exact Hr].
Qed.

Lemma lacks_app c a b :
  Str.lacks c (a ++ b) = Str.lacks c a && Str.lacks c b.
Proof.
  induction a as [|x r IH]; simpl; [reflexivity|].
  now rewrite IH, andb_assoc.
Qed.

(** ** [dump_hosts] *)

(** What [dump_hosts] does, path by path. *)
Lemma dump_hosts_run s :
  dump_hosts s =
  match lock_file s with
  | None => (Raise TypeError, s)
  | Some _ =>
      match lock_env s with
      | open_fails => (Raise OSError, s)
      | lockf_fails => (Raise OSError, with_lock Opened s)
      | lock_granted =>
          match hosts_base s with
          | None => (Raise OSError, with_lock Locked s)
          | Some base =>
              if writable (etc_hosts s) then
                let s1 := with_etc_hosts
                            (mk_file true (hosts_text base (nodes s)))
                            (with_lock Locked s) in
                if writable (etc_netgroup s) then
                  (Return tt,
                   with_lock Unset
                     (with_etc_netgroup
                        (mk_file true (netgroup_text (nodes s))) s1))
                else (Raise OSError, s1)
              else (Raise OSError, with_lock Locked s)
          end
      end
  end.
Proof.
  unfold dump_hosts, bind, lock, read_hosts_base, gets, write_file, unlock.
  destruct (lock_file s); [|reflexivity].
  destruct (lock_env s); try reflexivity. simpl.
  destruct (hosts_base s); [|reflexivity]. simpl.
  destruct (writable (etc_hosts s)); [|reflexivity]. simpl.
  destruct (writable (etc_netgroup s)); reflexivity.
Qed.

(** [dump_hosts] touches neither the dict nor the connector. *)
Lemma dump_hosts_frame s :
  nodes (snd (dump_hosts s)) = nodes s /\ db (snd (dump_hosts s)) = db s.
Proof.
  rewrite dump_hosts_run.
  destruct (lock_file s); [|now split].
  destruct (lock_env s); try (now split).
  destruct (hosts_base s); [|now split].
  destruct (writable (etc_hosts s)); [|now split].
  destruct (writable (etc_netgroup s)); now split.
Qed.

(** When [dump_hosts] returns, the lock was granted, the base file was read
    and both artifacts were written from the registry. *)
Lemma dump_hosts_returned s :
  fst (dump_hosts s) = Return tt ->
  exists base,
    hosts_base s = Some base
    /\ lock_env s = lock_granted
    /\ etc_hosts (snd (dump_hosts s))
       = mk_file true (hosts_text base (nodes s))
    /\ etc_netgroup (snd (dump_hosts s))
       = mk_file true (netgroup_text (nodes s))
    /\ __lock (snd (dump_hosts s)) = Unset.
Proof.
  rewrite dump_hosts_run.
  destruct (lock_file s); [|discriminate].
  destruct (lock_env s); try discriminate.
  destruct (hosts_base s) as [base|]; [|discriminate].
  destruct (writable (etc_hosts s)); [|discriminate].
  destruct (writable (etc_netgroup s)); [|discriminate].
  intros _. exists base. now repeat split.
Qed.

Lemma dump_hosts_usable s :
  usable s ->
  fst (dump_hosts s) = Return tt /\ usable (snd (dump_hosts s)).
Proof.
  intros (Hl & He & Hb & Hh & Hn). rewrite dump_hosts_run. unfold usable.
  destruct (lock_file s) eqn:El; [|contradiction]. rewrite He.
  destruct (hosts_base s) eqn:Eb; [|contradiction].
  rewrite Hh, Hn. simpl. rewrite El, Eb, He. repeat split; discriminate.
Qed.

(** C9 (amended). With a lock file configured, [dump_hosts] returns exactly
    when the lock is granted, the base file can be read and both artifacts
    can be written, and it then ends with the lock released. Once the lock
    is granted, every path where a read or write raises leaves the method
    with the lock held. When [open] on the lock file raises, nothing is
    changed; when [lockf] raises, the opened file is left in place without
    the lock. *)
Theorem dump_hosts_release s lf :
  lock_file s = Some lf ->
  (fst (dump_hosts s) = Return tt
   <-> lock_env s = lock_granted /\ hosts_base s <> None
       /\ writable (etc_hosts s) = true /\ writable (etc_netgroup s) = true)
  /\ (fst (dump_hosts s) = Return tt -> __lock (snd (dump_hosts s)) = Unset)
  /\ (lock_env s = lock_granted -> fst (dump_hosts s) <> Return tt ->
      fst (dump_hosts s) = Raise OSError
      /\ __lock (snd (dump_hosts s)) = Locked)
  /\ (lock_env s = open_fails -> dump_hosts s = (Raise OSError, s))
  /\ (lock_env s = lockf_fails ->
      dump_hosts s = (Raise OSError, with_lock Opened s)).
Proof.
  intros Hlf. rewrite dump_hosts_run, Hlf.
  destruct (lock_env s); simpl;
    [destruct (hosts_base s) as [base|]; simpl;
     [destruct (writable (etc_hosts s)); simpl;
      [destruct (writable (etc_netgroup s)); simpl|]|]| |];
    intuition (try discriminate; try congruence).
Qed.

Lemma dump_hosts_release_witness :
  __lock (snd (dump_hosts (Sample.ready [("a", Sample.a_on)]))) = Unset.
Proof.
  exact (proj1 (proj2 (dump_hosts_release (Sample.ready [("a", Sample.a_on)])
                         "/var/lock/skyway" eq_refl)) eq_refl).
Defined.

(** C9 (counterexample). With the lock granted and an unreadable base file
    the call raises and the lock taken at its start is still held. *)
Lemma dump_hosts_error_keeps_lock :
  fst (dump_hosts (mk_NodeMap (Some "/var/lock/skyway") lock_granted Unset []
                              (Some []) None Sample.rw Sample.rw))
  = Raise OSError
  /\ __lock (snd (dump_hosts (mk_NodeMap (Some "/var/lock/skyway")
                                         lock_granted Unset [] (Some []) None
                                         Sample.rw Sample.rw)))
     = Locked.
Proof. split; reflexivity. Qed.

Lemma hosts_line_one_line e :
  one_line e = true -> Str.lacks "010"%char (hosts_line e) = true.
Proof.
  unfold one_line, hosts_line. intros H.
  apply andb_true_iff in H as [Hh Hip]. simpl Str.join.
  rewrite lacks_app. simpl. rewrite Hh, andb_true_r.
  destruct (String.eqb (ip (snd e)) ""); [reflexivity | exact Hip].
Qed.

Lemma hosts_text_lines d :
  d <> [] -> forallb one_line d = true ->
  Str.split "010"%char
    (Str.join Str.newline (map hosts_line d) ++ Str.newline)
  = (map hosts_line d ++ [""])%list.
Proof.
  intros Hne Hall. unfold Str.newline at 2, Str.of_char.
  rewrite split_app_sep. unfold Str.newline.
  rewrite split_join; [reflexivity | |].
  - destruct d; [congruence | discriminate].
  - apply Forall_forall. intros x Hx. apply in_map_iff in Hx as [e [<- He]].
    apply hosts_line_one_line. rewrite forallb_forall in Hall. now apply Hall.
Qed.

(** C2 (amended). When [dump_hosts] returns, [/etc/hosts] holds the content
    of [hosts-base] followed by the node lines joined by newlines and a final
    newline. There is one line per node of the registry, in registry order,
    OFF nodes included: [<ip> <host>] for a node with an address and
    [1.2.3.4 <host>] for a node without one. With an empty registry the file
    is [hosts-base] followed by a single newline. When [hosts-base] is empty
    or ends with a newline, the node lines are whole lines of the file. *)
Theorem hosts_artifact_lines s base :
  hosts_base s = Some base ->
  fst (dump_hosts s) = Return tt ->
  forallb one_line (nodes s) = true ->
  content (etc_hosts (snd (dump_hosts s)))
  = base ++ Str.join Str.newline (map hosts_line (nodes s)) ++ Str.newline
  /\ (forall h n,
        hosts_line (h, n)
        = (if String.eqb (ip n) "" then "1.2.3.4" else ip n) ++ " " ++ h)
  /\ (nodes s = [] ->
      content (etc_hosts (snd (dump_hosts s))) = base ++ Str.newline)
  /\ (nodes s <> [] -> base = "" ->
      Str.split "010"%char (content (etc_hosts (snd (dump_hosts s))))
      = (map hosts_line (nodes s) ++ [""])%list)
  /\ (forall prefix,
        nodes s <> [] -> base = prefix ++ Str.newline ->
        Str.split "010"%char (content (etc_hosts (snd (dump_hosts s))))
        = (Str.split "010"%char prefix
           ++ map hosts_line (nodes s) ++ [""])%list).
Proof.
  intros Hb Hret Hall.
  destruct (dump_hosts_returned s Hret) as (base' & Hb' & _ & Hh & _).
  assert (base' = base) as -> by congruence.
  rewrite Hh. simpl content. unfold hosts_text.
  split; [reflexivity|]. split; [reflexivity|]. split; [|split].
  - intros ->. reflexivity.
  - intros Hne ->. simpl. now apply hosts_text_lines.
  - intros prefix Hne ->. rewrite append_assoc.
    unfold Str.newline at 1, Str.of_char. simpl.
    rewrite split_app_sep. now rewrite hosts_text_lines.
Qed.

Lemma hosts_artifact_lines_witness :
  Str.split "010"%char
    (content (etc_hosts (snd (dump_hosts
       (Sample.ready [("a", Sample.a_on); ("b", Sample.b_off)])))))
  = (Str.split "010"%char "127.0.0.1 localhost"
     ++ map hosts_line [("a", Sample.a_on); ("b", Sample.b_off)] ++ [""])%list.
Proof.
  apply (hosts_artifact_lines
           (Sample.ready [("a", Sample.a_on); ("b", Sample.b_off)])
           ("127.0.0.1 localhost" ++ Str.newline));
    [reflexivity | reflexivity | reflexivity | discriminate | reflexivity].
Defined.

(** C2 (counterexample). With [a] ON at 10.0.0.1 and [b] OFF, the artifact
    has a line for [b] next to the line for [a]. *)
Lemma hosts_artifact_lists_off_node :
  instance Sample.b_off = ""
  /\ fst (dump_hosts (Sample.ready [("a", Sample.a_on); ("b", Sample.b_off)]))
     = Return tt
  /\ Str.split "010"%char
       (content (etc_hosts (snd (dump_hosts
          (Sample.ready [("a", Sample.a_on); ("b", Sample.b_off)])))))
     = ["127.0.0.1 localhost"; "10.0.0.1 a"; "1.2.3.4 b"; ""].
Proof. repeat split. Qed.

(** ** More facts about the dict *)

Lemma get_set k h n d :
  Dict.get k (Dict.set h n d) = if String.eqb h k then Some n else Dict.get k d.
Proof.
  induction d as [|[k' v] r IH]; simpl.
  - reflexivity.
  - destruct (String.eqb_spec k' h) as [->|Hne]; simpl.
    + destruct (String.eqb h k); reflexivity.
    + rewrite IH. destruct (String.eqb_spec k' k) as [->|Hne'].
      * destruct (String.eqb_spec h k); [congruence | reflexivity].
      * reflexivity.
Qed.

Lemma get_del k h d :
  Dict.get k (Dict.del h d) = if String.eqb h k then None else Dict.get k d.
Proof.
  induction d as [|[k' v] r IH]; simpl.
  - now destruct (String.eqb h k).
  - destruct (String.eqb_spec k' h) as [->|Hne]; simpl.
    + rewrite IH. destruct (String.eqb h k); reflexivity.
    + rewrite IH. destruct (String.eqb_spec k' k) as [->|Hne'].
      * destruct (String.eqb_spec h k); [congruence | reflexivity].
      * reflexivity.
Qed.

Lemma mem_set k h n d :
  Dict.mem k (Dict.set h n d) = String.eqb h k || Dict.mem k d.
Proof. unfold Dict.mem. rewrite get_set. now destruct (String.eqb h k). Qed.

Lemma mem_del k h d :
  Dict.mem k (Dict.del h d) = negb (String.eqb h k) && Dict.mem k d.
Proof. unfold Dict.mem. rewrite get_del. now destruct (String.eqb h k). Qed.

(** ** The loops of [rebuild] *)

Lemma for_each_cons {A} (body : A -> M unit) x r s :
  for_each (x :: r) body s =
  match body x s with
  | (Return _, s1) => for_each r body s1
  | (Raise e, s1) => (Raise e, s1)
  end.
Proof. reflexivity. Qed.

Lemma remove_host_run h s :
  remove_host h s =
  match db s with
  | None => (Raise AttributeError, with_nodes (Dict.del h (nodes s)) s)
  | Some l =>
      (Return tt,
       with_db (l ++ [remove_one "node_map" "host" h])
               (with_nodes (Dict.del h (nodes s)) s))
  end.
Proof.
  unfold remove_host, bind, modify, db_do. simpl. now destruct (db s).
Qed.

Lemma add_host_run h s :
  add_host h s =
  if Dict.mem h (nodes s) then (Return tt, s)
  else
    match Str.split "-" h with
    | w0 :: w1 :: w2 :: _ =>
        let n := mk_node h w1 w2 (w0 ++ "-" ++ w1) "" "" (PyInt 0) in
        match db s with
        | None => (Raise AttributeError, with_nodes (Dict.set h n (nodes s)) s)
        | Some l =>
            (Return tt,
             with_db (l ++ [insert_one "node_map" (NodeRow n)])
                     (with_nodes (Dict.set h n (nodes s)) s))
        end
    | _ => (Raise IndexError, s)
    end.
Proof.
  unfold add_host, bind, gets, new_node, bind, index, modify, db_do, ret, raise.
  destruct (Dict.mem h (nodes s)); [reflexivity|].
  destruct (Str.split "-" h) as [|w0 [|w1 [|w2 rest]]]; reflexivity.
Qed.

(** One turn of the second loop either leaves the dict alone or adds, under
    a key that was absent, the row parsed from that key. *)
Lemma add_host_step h s :
  nodes (snd (add_host h s)) = nodes s
  \/ (Dict.mem h (nodes s) = false
      /\ exists n, parsed h n
                   /\ nodes (snd (add_host h s)) = Dict.set h n (nodes s)).
Proof.
  rewrite add_host_run. destruct (Dict.mem h (nodes s)) eqn:Hm; [now left|].
  destruct (Str.split "-" h) as [|w0 [|w1 [|w2 rest]]] eqn:Hs; try (now left).
  right. split; [reflexivity|].
  exists (mk_node h w1 w2 (w0 ++ "-" ++ w1) "" "" (PyInt 0)). split.
  - exists w0, w1, w2, rest. now split.
  - simpl. now destruct (db s).
Qed.

(** Rows found after the second loop were there before, or were parsed from
    their key. *)
Lemma add_loop_rows l : forall s k n,
  Dict.get k (nodes (snd (for_each l add_host s))) = Some n ->
  Dict.get k (nodes s) = Some n
  \/ (Dict.get k (nodes s) = None /\ parsed k n).
Proof.
  induction l as [|h t IH]; intros s k n Hget; [now left|].
  rewrite for_each_cons in Hget.
  assert (Hmid : Dict.get k (nodes (snd (add_host h s))) = Some n
                 \/ (Dict.get k (nodes (snd (add_host h s))) = None
                     /\ parsed k n)).
  { destruct (add_host h s) as [[[]|e] s1]; [now apply IH | now left]. }
  destruct (add_host_step h s) as [Hsame|(Hm & n0 & Hp & Hset)].
  - now rewrite Hsame in Hmid.
  - rewrite Hset, get_set in Hmid. apply mem_get_none in Hm.
    destruct (String.eqb_spec h k) as [->|Hne].
    + destruct Hmid as [[= <-]|[Hnone _]]; [now right | discriminate].
    + exact Hmid.
Qed.

Lemma add_loop_mono l : forall s k,
  Dict.mem k (nodes s) = true ->
  Dict.mem k (nodes (snd (for_each l add_host s))) = true.
Proof.
  induction l as [|h t IH]; intros s k Hk; [exact Hk|].
  rewrite for_each_cons.
  assert (Hmid : Dict.mem k (nodes (snd (add_host h s))) = true).
  { destruct (add_host_step h s) as [->|(_ & n0 & _ & ->)]; [exact Hk|].
    rewrite mem_set, Hk. apply orb_true_r. }
  destruct (add_host h s) as [[[]|e] s1]; [now apply IH | exact Hmid].
Qed.

(** After a second loop that returned, every listed host has a row. *)
Lemma add_loop_covers l : forall s k,
  fst (for_each l add_host s) = Return tt -> In k l ->
  Dict.mem k (nodes (snd (for_each l add_host s))) = true.
Proof.
  induction l as [|h t IH]; intros s k Hret Hin; [destruct Hin|].
  rewrite for_each_cons in *.
  assert (Hh : fst (add_host h s) = Return tt ->
               Dict.mem h (nodes (snd (add_host h s))) = true).
  { rewrite add_host_run. destruct (Dict.mem h (nodes s)) eqn:Hm; [now intros _|].
    destruct (Str.split "-" h) as [|w0 [|w1 [|w2 rest]]]; try discriminate.
    simpl. destruct (db s); [|discriminate]. intros _. simpl.
    rewrite mem_set, String.eqb_refl. reflexivity. }
  destruct (add_host h s) as [[[]|e] s1]; [|discriminate].
  destruct Hin as [<-|Hin]; [|now apply IH].
  apply add_loop_mono. now apply Hh.
Qed.

Lemma add_loop_keys l : forall s k,
  Dict.mem k (nodes (snd (for_each l add_host s))) = true ->
  Dict.mem k (nodes s) = true \/ In k l.
Proof.
  induction l as [|h t IH]; intros s k Hk; [now left|].
  rewrite for_each_cons in Hk.
  assert (Hmid : Dict.mem k (nodes (snd (add_host h s))) = true
                 \/ In k t).
  { destruct (add_host h s) as [[[]|e] s1]; [now apply IH | now left]. }
  destruct Hmid as [Hmid|Hin]; [|right; now right].
  destruct (add_host_step h s) as [Hsame|(_ & n0 & _ & Hset)].
  - left. now rewrite <- Hsame.
  - rewrite Hset, mem_set in Hmid. apply orb_true_iff in Hmid as [Heq|Hm].
    + apply String.eqb_eq in Heq. right. now left.
    + now left.
Qed.

(** Running the second loop again from where it stopped does nothing more,
    unless it stopped on the missing connector. *)
Lemma add_loop_restart l : forall s,
  fst (for_each l add_host s) <> Raise AttributeError ->
  for_each l add_host (snd (for_each l add_host s)) = for_each l add_host s.
Proof.
  induction l as [|h t IH]; intros s Hok; [reflexivity|].
  rewrite (for_each_cons add_host h t s) in *.
  destruct (add_host h s) as [[[]|e] s1] eqn:Hadd.
  - (* the turn for [h] returned: [h] has a row from then on *)
    assert (Hh : Dict.mem h (nodes s1) = true).
    { revert Hadd. rewrite add_host_run.
      destruct (Dict.mem h (nodes s)) eqn:Hm; [now intros [= <-]|].
      destruct (Str.split "-" h) as [|w0 [|w1 [|w2 rest]]]; try discriminate.
      simpl. destruct (db s); [|discriminate]. intros [= <-]. simpl.
      rewrite mem_set, String.eqb_refl. reflexivity. }
    cbn [fst snd] in Hok. rewrite for_each_cons.
    rewrite (add_host_run h (snd (for_each t add_host s1))).
    rewrite (add_loop_mono t s1 h Hh). now apply IH.
  - (* the turn for [h] raised [IndexError] and left the state alone *)
    cbn [fst snd] in Hok |- *. rewrite for_each_cons.
    revert Hadd. rewrite add_host_run.
    destruct (Dict.mem h (nodes s)) eqn:Hm; [discriminate|].
    destruct (Str.split "-" h) as [|w0 [|w1 [|w2 rest]]] eqn:Hs;
      try (intros [= <- <-]; rewrite add_host_run, Hm, Hs; reflexivity).
    simpl. destruct (db s); [discriminate|].
    intros [= <- <-]. now contradiction Hok.
Qed.

Lemma remove_loop_rows removed : forall s k n,
  Dict.get k (nodes (snd (for_each removed remove_host s))) = Some n ->
  Dict.get k (nodes s) = Some n.
Proof.
  induction removed as [|h t IH]; intros s k n Hget; [exact Hget|].
  rewrite for_each_cons, remove_host_run in Hget.
  destruct (db s).
  - apply IH in Hget. simpl in Hget. rewrite get_del in Hget.
    now destruct (String.eqb h k).
  - simpl in Hget. rewrite get_del in Hget. now destruct (String.eqb h k).
Qed.

(** The first loop's deletions go through unless the connector is missing,
    and then none of the removed hosts has a row. *)
Lemma remove_loop_done removed : forall s,
  fst (for_each removed remove_host s) <> Raise AttributeError ->
  fst (for_each removed remove_host s) = Return tt
  /\ forall k, Dict.mem k (nodes (snd (for_each removed remove_host s))) = true ->
       Dict.mem k (nodes s) = true /\ ~ In k removed.
Proof.
  induction removed as [|h t IH]; intros s Hok; [now split|].
  rewrite for_each_cons, remove_host_run in *.
  destruct (db s) as [l|]; [|now contradiction Hok].
  destruct (IH _ Hok) as [Hret Hkeys]. split; [exact Hret|].
  intros k Hk. apply Hkeys in Hk as [Hk Hnin]. simpl in Hk.
  rewrite mem_del in Hk. apply andb_true_iff in Hk as [Hne Hk].
  split; [exact Hk|]. intros [<-|Hin]; [|contradiction].
  now rewrite String.eqb_refl in Hne.
Qed.

Lemma scan_removed_collects new_nodes d : forall acc removed,
  scan_removed new_nodes d acc = Return removed ->
  forall k, In k acc \/ (In k (Dict.keys d) /\ listed k new_nodes = false) ->
            In k removed.
Proof.
  induction d as [|[h n] r IH]; intros acc removed Hscan k Hk; simpl in *.
  - injection Hscan as <-. now destruct Hk as [Hk|[[] _]].
  - destruct (listed h new_nodes) eqn:Hl; simpl in Hscan.
    + apply (IH _ _ Hscan). destruct Hk as [Hk|[[<-|Hk] Hnl]];
        [now left | congruence | right; now split].
    + destruct (String.eqb (instance n) ""); simpl in Hscan; [|discriminate].
      apply (IH _ _ Hscan). destruct Hk as [Hk|[[<-|Hk] Hnl]].
      * left. apply in_or_app. now left.
      * left. apply in_or_app. right. now left.
      * right. now split.
Qed.

Lemma scan_removed_closed new_nodes d : forall acc,
  (forall k, In k (Dict.keys d) -> listed k new_nodes = true) ->
  scan_removed new_nodes d acc = Return acc.
Proof.
  induction d as [|[h n] r IH]; intros acc Hall; [reflexivity|].
  simpl. rewrite (Hall h) by now left. simpl.
  apply IH. intros k Hk. apply Hall. now right.
Qed.

Lemma rebuild_run new_nodes s :
  rebuild new_nodes s =
  match scan_removed new_nodes (nodes s) [] with
  | Raise e => (Raise e, s)
  | Return removed =>
      match for_each removed remove_host s with
      | (Return _, s1) => for_each new_nodes add_host s1
      | (Raise e, s1) => (Raise e, s1)
      end
  end.
Proof.
  unfold rebuild, bind, gets.
  now destruct (scan_removed new_nodes (nodes s) []).
Qed.

(** A row found after [rebuild] under a key that had none was parsed from
    that key. *)
Lemma rebuild_new_row new_nodes s h n :
  Dict.get h (nodes s) = None ->
  Dict.get h (nodes (snd (rebuild new_nodes s))) = Some n ->
  parsed h n.
Proof.
  intros Hnone. rewrite rebuild_run.
  destruct (scan_removed new_nodes (nodes s) []) as [removed|e];
    [|simpl; congruence].
  pose proof (remove_loop_rows removed s h) as Hrm.
  destruct (for_each removed remove_host s) as [[[]|e] s1]; simpl in Hrm.
  - intros Hget. apply add_loop_rows in Hget as [Hget|[_ Hp]]; [|exact Hp].
    apply Hrm in Hget. congruence.
  - simpl. intros Hget. apply Hrm in Hget. congruence.
Qed.

(** ** C3: the row [rebuild] adds *)

(** C3 (amended). For a host that had no row, the row [rebuild] stores is
    OFF, its cloud is the second hyphen-separated segment of the host name,
    its type the third, and its account the first two segments joined by a
    hyphen; for a name of exactly three segments, account and type joined by
    a hyphen give the host name back. When [rebuild] returns, every listed
    host that had no row has one. *)
Theorem rebuild_added_row new_nodes s h :
  Dict.get h (nodes s) = None ->
  (forall n, Dict.get h (nodes (snd (rebuild new_nodes s))) = Some n ->
     exists w0 w1 w2 rest,
       Str.split "-" h = w0 :: w1 :: w2 :: rest
       /\ n = mk_node h w1 w2 (w0 ++ "-" ++ w1) "" "" (PyInt 0)
       /\ (rest = [] -> account n ++ "-" ++ type n = h))
  /\ (fst (rebuild new_nodes s) = Return tt -> In h new_nodes ->
      exists n, Dict.get h (nodes (snd (rebuild new_nodes s))) = Some n).
Proof.
  intros Hnone. split.
  - intros n Hget.
    destruct (rebuild_new_row _ _ _ _ Hnone Hget) as (w0 & w1 & w2 & rest & Hs & ->).
    exists w0, w1, w2, rest. repeat split; [exact Hs|].
    intros ->. simpl account. simpl type.
    pose proof (join_split "-" h) as Hj. rewrite Hs in Hj.
    rewrite <- Hj. rewrite append_assoc. reflexivity.
  - rewrite rebuild_run.
    destruct (scan_removed new_nodes (nodes s) []) as [removed|e];
      [|discriminate].
    destruct (for_each removed remove_host s) as [[[]|e] s1]; [|discriminate].
    intros Hret Hin. apply mem_get_some. now apply add_loop_covers.
Qed.

Lemma rebuild_added_row_witness :
  exists n,
    Dict.get "rcc-aws-t1"
      (nodes (snd (rebuild ["rcc-aws-t1"] (Sample.ready [("b", Sample.b_off)]))))
    = Some n.
Proof.
  apply (proj2 (rebuild_added_row ["rcc-aws-t1"]
                  (Sample.ready [("b", Sample.b_off)]) "rcc-aws-t1" eq_refl));
    [reflexivity | now left].
Defined.

(** C3 (counterexample). For the host [rcc-aws-t1] the stored account is
    [rcc-aws], so account, cloud and type joined by hyphens read
    [rcc-aws-aws-t1]. *)
Lemma rebuild_account_holds_cloud :
  exists n,
    Dict.get "rcc-aws-t1"
      (nodes (snd (rebuild ["rcc-aws-t1"] (Sample.ready [])))) = Some n
    /\ Str.join "-" [account n; cloud n; type n] = "rcc-aws-aws-t1"
    /\ Str.join "-" [account n; cloud n; type n] <> "rcc-aws-t1".
Proof.
  exists Sample.c_off. repeat split. discriminate.
Qed.

(** ** C5: [rebuild] twice *)

(** C5. On the map as [__init__] leaves it, which has no connector,
    [rebuild] with two new hosts stops with [AttributeError] after adding the
    first one in memory; the same call made again adds the second one and
    stops the same way, so the second call does change the registry. *)
Theorem rebuild_twice_without_connector :
  fst (rebuild ["a-b-c"; "d-e-f"] Sample.fresh) = Raise AttributeError
  /\ Dict.keys (nodes (snd (rebuild ["a-b-c"; "d-e-f"] Sample.fresh)))
     = ["a-b-c"]
  /\ fst (rebuild ["a-b-c"; "d-e-f"]
            (snd (rebuild ["a-b-c"; "d-e-f"] Sample.fresh)))
     = Raise AttributeError
  /\ Dict.keys (nodes (snd (rebuild ["a-b-c"; "d-e-f"]
                             (snd (rebuild ["a-b-c"; "d-e-f"] Sample.fresh)))))
     = ["a-b-c"; "d-e-f"].
Proof. repeat split. Qed.

(** X16. Unless the first call stops on the missing connector, a second
    [rebuild] with the same list ends as the first did and leaves the whole
    state (registry, connector calls, lock, files) as the first left it. *)
Theorem rebuild_idempotent new_nodes s :
  fst (rebuild new_nodes s) <> Raise AttributeError ->
  rebuild new_nodes (snd (rebuild new_nodes s)) = rebuild new_nodes s.
Proof.
  intros Hok. rewrite (rebuild_run new_nodes s) in *.
  destruct (scan_removed new_nodes (nodes s) []) as [removed|e] eqn:Hscan.
  - pose proof (remove_loop_done removed s) as Hrm.
    destruct (for_each removed remove_host s) as [[[]|e] s1] eqn:Hloop.
    + destruct (Hrm ltac:(discriminate)) as [_ Hkeys]. clear Hrm.
      assert (Hclosed : forall k,
                In k (Dict.keys (nodes (snd (for_each new_nodes add_host s1)))) ->
                listed k new_nodes = true).
      { intros k Hk. apply mem_in_keys, add_loop_keys in Hk as [Hk|Hk].
        - apply Hkeys in Hk as [Hk Hnin].
          destruct (listed k new_nodes) eqn:Hl; [reflexivity|].
          exfalso. apply Hnin.
          apply (scan_removed_collects _ _ _ _ Hscan). right.
          split; [now apply mem_in_keys | exact Hl].
        - now apply listed_in. }
      rewrite rebuild_run, (scan_removed_closed _ _ [] Hclosed).
      simpl for_each at 1. unfold ret at 1.
      now apply add_loop_restart.
    + exfalso. apply Hok. simpl.
      destruct (Hrm ltac:(simpl; intros H; apply Hok; exact H)) as [Habs _].
      discriminate Habs.
  - simpl. now rewrite rebuild_run, Hscan.
Qed.

Lemma rebuild_idempotent_witness :
  rebuild ["a"; "rcc-aws-t1"]
    (snd (rebuild ["a"; "rcc-aws-t1"]
            (Sample.ready [("a", Sample.a_on); ("b", Sample.b_off)])))
  = rebuild ["a"; "rcc-aws-t1"]
      (Sample.ready [("a", Sample.a_on); ("b", Sample.b_off)]).
Proof.
  apply rebuild_idempotent. discriminate.
Defined.

(** ** [update], [power_on], [power_off] *)

Lemma update_run h kw s :
  update h kw s =
  match Dict.get h (nodes s) with
  | None => (Raise KeyError, s)
  | Some n =>
      let s1 := with_nodes (Dict.set h (apply_kwargs kw n) (nodes s)) s in
      match db s with
      | None => (Raise AttributeError, s1)
      | Some l =>
          (Return tt, with_db (l ++ [update_one "node_map" "host" h kw]) s1)
      end
  end.
Proof.
  unfold update, bind, getitem, modify, db_do.
  destruct (Dict.get h (nodes s)); [|reflexivity]. simpl.
  now destruct (db s).
Qed.

(** The row under [h] once [update] has run on a registered host, with or
    without a connector. *)
Lemma update_row h kw s n :
  Dict.get h (nodes s) = Some n ->
  Dict.get h (nodes (snd (update h kw s))) = Some (apply_kwargs kw n).
Proof.
  intros Hget. rewrite update_run, Hget. simpl.
  destruct (db s); simpl; now rewrite get_set, String.eqb_refl.
Qed.

Lemma power_on_nodes h inst addr now s :
  nodes (snd (power_on h inst addr now s))
  = nodes (snd (update h (mk_kwargs inst addr (PyStr now)) s)).
Proof.
  unfold power_on, bind.
  destruct (update h (mk_kwargs inst addr (PyStr now)) s) as [[[]|e] s1];
    [|reflexivity].
  apply dump_hosts_frame.
Qed.

Lemma power_off_nodes h c i now s :
  let h' := resolve_host h c i (nodes s) in
  h' <> "" -> Dict.mem h' (nodes s) = true ->
  nodes (snd (power_off h c i now s))
  = nodes (snd (update h' (mk_kwargs "" "" (PyStr "0")) s)).
Proof.
  intros h' Hne Hmem. unfold power_off.
  rewrite (bind_return _ _ s (nodes s) s) by reflexivity. fold h'.
  apply String.eqb_neq in Hne. rewrite Hne, Hmem. simpl.
  apply mem_get_some in Hmem as [n Hget].
  unfold bind at 1, getitem. rewrite Hget.
  unfold bind at 1.
  destruct (update h' (mk_kwargs "" "" (PyStr "0")) s) as [[[]|e] s1] eqn:Hup;
    [|reflexivity].
  assert (Hfrm : forall c0, nodes (snd (db_do c0 s1)) = nodes s1).
  { intros c0. unfold db_do. now destruct (db s1). }
  unfold bind at 1.
  specialize (Hfrm (insert_one "node_journal" (JournalRow (journal_of n now)))).
  destruct (db_do _ s1) as [[[]|e] s2]; [|exact Hfrm].
  unfold bind at 1. pose proof (dump_hosts_frame s2) as [Hd _].
  destruct (dump_hosts s2) as [[[]|e] s3]; simpl in *; congruence.
Qed.

(** ** C1: the power fields each operation writes *)

(** C1 (amended). A row [rebuild] adds has instance and ip empty and start
    the integer 0. The row [power_off] resets has instance and ip empty and
    start the string ['0']. The row [power_on] writes holds the instance and
    the ip it was called with, whatever they are, and start is the timestamp
    string: it is fully ON exactly when both arguments are non-empty. *)
Theorem power_fields_written s :
  (forall new_nodes h n,
     Dict.get h (nodes s) = None ->
     Dict.get h (nodes (snd (rebuild new_nodes s))) = Some n ->
     instance n = "" /\ ip n = "" /\ start n = PyInt 0)
  /\ (forall h c i now,
        resolve_host h c i (nodes s) <> "" ->
        Dict.mem (resolve_host h c i (nodes s)) (nodes s) = true ->
        exists n,
          Dict.get (resolve_host h c i (nodes s))
                   (nodes (snd (power_off h c i now s))) = Some n
          /\ instance n = "" /\ ip n = "" /\ start n = PyStr "0")
  /\ (forall h inst addr now,
        Dict.mem h (nodes s) = true ->
        exists n,
          Dict.get h (nodes (snd (power_on h inst addr now s))) = Some n
          /\ instance n = inst /\ ip n = addr /\ start n = PyStr now
          /\ (I1 n <-> inst <> "" /\ addr <> "")).
Proof.
  split; [|split].
  - intros new_nodes h n Hnone Hget.
    destruct (rebuild_new_row _ _ _ _ Hnone Hget)
      as (w0 & w1 & w2 & rest & _ & ->).
    now repeat split.
  - intros h c i now Hne Hmem.
    rewrite (power_off_nodes h c i now s Hne Hmem).
    apply mem_get_some in Hmem as [n Hget].
    exists (apply_kwargs (mk_kwargs "" "" (PyStr "0")) n).
    split; [now apply update_row | now repeat split].
  - intros h inst addr now Hmem. rewrite power_on_nodes.
    apply mem_get_some in Hmem as [n Hget].
    exists (apply_kwargs (mk_kwargs inst addr (PyStr now)) n).
    split; [now apply update_row|].
    do 3 (split; [reflexivity|]). unfold I1. simpl. split.
    + intros [[Hi _] [Hb _]]. split; intros E.
      * discriminate (Hb (Hi E)).
      * discriminate (Hb E).
    + intros [Hi Ha]. repeat split; intros E;
        try contradiction; discriminate E.
Qed.

(** C1 (counterexample). [power_on] with an empty instance and a non-empty
    ip returns normally and leaves a row that breaks I1. *)
Lemma power_on_partial_row :
  fst (power_on "rcc-aws-t1" "" "10.0.0.1" "1700000000"
         (Sample.ready [("rcc-aws-t1", Sample.c_off)])) = Return tt
  /\ exists n,
       Dict.get "rcc-aws-t1"
         (nodes (snd (power_on "rcc-aws-t1" "" "10.0.0.1" "1700000000"
                        (Sample.ready [("rcc-aws-t1", Sample.c_off)]))))
       = Some n
       /\ db (snd (power_on "rcc-aws-t1" "" "10.0.0.1" "1700000000"
                     (Sample.ready [("rcc-aws-t1", Sample.c_off)])))
          = Some [update_one "node_map" "host" "rcc-aws-t1"
                    (mk_kwargs "" "10.0.0.1" (PyStr "1700000000"))]
       /\ instance n = "" /\ ip n = "10.0.0.1" /\ ~ I1 n.
Proof.
  split; [reflexivity|].
  exists (mk_node "rcc-aws-t1" "aws" "t1" "rcc-aws" "" "10.0.0.1"
                  (PyStr "1700000000")).
  repeat split. intros [[Hi _] _]. discriminate (Hi eq_refl).
Qed.

(** ** C6: [power_on] then [power_off] *)

Lemma update_ready h kw s n l :
  Dict.get h (nodes s) = Some n -> db s = Some l ->
  update h kw s
  = (Return tt,
     with_db (l ++ [update_one "node_map" "host" h kw])
             (with_nodes (Dict.set h (apply_kwargs kw n) (nodes s)) s)).
Proof. intros Hget Hdb. now rewrite update_run, Hget, Hdb. Qed.

Lemma dump_hosts_ready s :
  usable s ->
  exists s', dump_hosts s = (Return tt, s')
             /\ usable s' /\ nodes s' = nodes s /\ db s' = db s.
Proof.
  intros Hu. exists (snd (dump_hosts s)).
  destruct (dump_hosts_usable s Hu) as [Hret Hu'].
  destruct (dump_hosts_frame s) as [Hn Hd].
  destruct (dump_hosts s) as [[[]|e] s']; simpl in *;
    [|discriminate].
  split; [reflexivity|]. split; [exact Hu'|]. split; assumption.
Qed.

Lemma power_on_ready h inst addr now s n l :
  usable s -> db s = Some l -> Dict.get h (nodes s) = Some n ->
  exists s',
    power_on h inst addr now s = (Return tt, s')
    /\ usable s'
    /\ db s' = Some (l ++ [update_one "node_map" "host" h
                             (mk_kwargs inst addr (PyStr now))])%list
    /\ nodes s'
       = Dict.set h (apply_kwargs (mk_kwargs inst addr (PyStr now)) n) (nodes s).
Proof.
  intros Hu Hdb Hget. unfold power_on.
  rewrite (bind_return _ _ _ _ _ (update_ready h _ s n l Hget Hdb)).
  match goal with |- context [dump_hosts ?s1] =>
    destruct (dump_hosts_ready s1 Hu) as (s' & Hrun & Hu' & Hn & Hd)
  end.
  exists s'. split; [exact Hrun|]. split; [exact Hu'|].
  split; [now rewrite Hd | now rewrite Hn].
Qed.

Lemma power_off_ready h now s n l :
  usable s -> db s = Some l -> Dict.get h (nodes s) = Some n -> h <> "" ->
  fst (power_off h None None now s) = Return (instance n).
Proof.
  intros Hu Hdb Hget Hne. unfold power_off.
  rewrite (bind_return _ _ s (nodes s) s) by reflexivity.
  unfold resolve_host. apply String.eqb_neq in Hne. rewrite Hne.
  assert (Hmem : Dict.mem h (nodes s) = true)
    by (apply mem_get_some; now exists n).
  rewrite Hmem. simpl.
  rewrite (bind_return _ _ s n s) by (unfold getitem; now rewrite Hget).
  rewrite (bind_return _ _ _ _ _ (update_ready h _ s n l Hget Hdb)).
  match goal with |- context [bind (db_do ?c) _ ?s1] =>
    rewrite (bind_return (db_do c) _ s1 tt
               (with_db ((l ++ [update_one "node_map" "host" h
                                  (mk_kwargs "" "" (PyStr "0"))]) ++ [c]) s1))
      by reflexivity
  end.
  match goal with |- context [bind dump_hosts _ ?s2] =>
    destruct (dump_hosts_ready s2 Hu) as (s' & Hrun & _)
  end.
  now rewrite (bind_return _ _ _ _ _ Hrun).
Qed.

(** C6. Without a connector, as [__init__] leaves the map, [power_on] on a
    registered host raises [AttributeError] once the row is updated, and the
    [power_off] that follows raises [AttributeError] too: no instance is
    returned. *)
Theorem power_on_off_without_connector s h inst addr now1 now2 :
  db s = None -> Dict.mem h (nodes s) = true -> h <> "" ->
  fst (power_on h inst addr now1 s) = Raise AttributeError
  /\ fst (power_off h None None now2 (snd (power_on h inst addr now1 s)))
     = Raise AttributeError.
Proof.
  intros Hdb Hmem Hne. apply mem_get_some in Hmem as [n Hget].
  pose proof (update_unset_known s Hdb h (mk_kwargs inst addr (PyStr now1))
                n Hget) as Hup.
  unfold power_on. rewrite (bind_raise _ _ _ _ _ Hup).
  split; [reflexivity|]. simpl snd.
  set (n1 := apply_kwargs (mk_kwargs inst addr (PyStr now1)) n).
  set (s1 := with_nodes (Dict.set h n1 (nodes s)) s).
  assert (Hdb1 : db s1 = None) by exact Hdb.
  assert (Hget1 : Dict.get h (nodes s1) = Some n1)
    by (subst s1; simpl; now rewrite get_set, String.eqb_refl).
  unfold power_off.
  rewrite (bind_return _ _ s1 (nodes s1) s1) by reflexivity.
  unfold resolve_host. apply String.eqb_neq in Hne. rewrite Hne.
  assert (Hmem1 : Dict.mem h (nodes s1) = true)
    by (apply mem_get_some; now exists n1).
  rewrite Hmem1. cbn [orb negb].
  rewrite (bind_return _ _ s1 n1 s1) by (unfold getitem; now rewrite Hget1).
  now rewrite (bind_raise _ _ _ _ _
                 (update_unset_known s1 Hdb1 h _ n1 Hget1)).
Qed.

Lemma power_on_off_without_connector_witness :
  fst (power_on "rcc-aws-t1" "i-123" "10.0.0.5" "1700000000"
         (snd (rebuild ["rcc-aws-t1"] Sample.fresh)))
  = Raise AttributeError
  /\ fst (power_off "rcc-aws-t1" None None "1700003600"
            (snd (power_on "rcc-aws-t1" "i-123" "10.0.0.5" "1700000000"
                    (snd (rebuild ["rcc-aws-t1"] Sample.fresh)))))
     = Raise AttributeError.
Proof.
  apply power_on_off_without_connector;
    [reflexivity | reflexivity | discriminate].
Defined.

(** X17. On a map with a connector, a grantable lock and usable files, for a
    registered host with a non-empty name, [power_on] returns, the
    [power_off] that follows returns the instance [power_on] was given, and
    the row is left with instance and ip empty and start ['0']. *)
Theorem power_on_then_off_returns_instance s h inst addr now1 now2 :
  usable s -> db s <> None -> Dict.mem h (nodes s) = true -> h <> "" ->
  fst (power_on h inst addr now1 s) = Return tt
  /\ fst (power_off h None None now2 (snd (power_on h inst addr now1 s)))
     = Return inst
  /\ exists n,
       Dict.get h
         (nodes (snd (power_off h None None now2
                        (snd (power_on h inst addr now1 s))))) = Some n
       /\ instance n = "" /\ ip n = "" /\ start n = PyStr "0".
Proof.
  intros Hu Hdb Hmem Hne.
  apply mem_get_some in Hmem as [n Hget].
  destruct (db s) as [l|] eqn:Hl; [|now contradiction Hdb].
  destruct (power_on_ready h inst addr now1 s n l Hu Hl Hget)
    as (s' & Hrun & Hu' & Hd' & Hn').
  rewrite Hrun. split; [reflexivity|]. simpl snd.
  assert (Hget' : Dict.get h (nodes s')
                  = Some (apply_kwargs (mk_kwargs inst addr (PyStr now1)) n))
    by (now rewrite Hn', get_set, String.eqb_refl).
  split.
  - now rewrite (power_off_ready h now2 s' _ _ Hu' Hd' Hget' Hne).
  - pose proof (power_off_nodes h None None now2 s') as Hp.
    cbv zeta in Hp. unfold resolve_host in Hp.
    rewrite (Hp Hne ltac:(apply mem_get_some; eexists; exact Hget')).
    eexists. split; [now apply (update_row h _ s' _ Hget') | now repeat split].
Qed.

Lemma power_on_then_off_returns_instance_witness :
  fst (power_on "rcc-aws-t1" "i-123" "10.0.0.5" "1700000000"
         (Sample.ready [("rcc-aws-t1", Sample.c_off)])) = Return tt
  /\ fst (power_off "rcc-aws-t1" None None "1700003600"
            (snd (power_on "rcc-aws-t1" "i-123" "10.0.0.5" "1700000000"
                    (Sample.ready [("rcc-aws-t1", Sample.c_off)]))))
     = Return "i-123"
  /\ exists n,
       Dict.get "rcc-aws-t1"
         (nodes (snd (power_off "rcc-aws-t1" None None "1700003600"
            (snd (power_on "rcc-aws-t1" "i-123" "10.0.0.5" "1700000000"
                    (Sample.ready [("rcc-aws-t1", Sample.c_off)]))))))
       = Some n
       /\ instance n = "" /\ ip n = "" /\ start n = PyStr "0".
Proof.
  apply power_on_then_off_returns_instance;
    [repeat split; discriminate | discriminate | reflexivity | discriminate].
Defined.

(** * Further properties of the node map *)

(** ** [rebuild]: outcomes, rows kept, environment untouched *)

Lemma scan_removed_only_unlisted new_nodes d : forall acc removed,
  scan_removed new_nodes d acc = Return removed ->
  forall k, In k removed ->
            In k acc \/ (In k (Dict.keys d) /\ listed k new_nodes = false).
Proof.
  induction d as [|[h n] r IH]; intros acc removed Hscan k Hk; simpl in *.
  - injection Hscan as <-. now left.
  - destruct (listed h new_nodes) eqn:Hl; simpl in Hscan.
    + destruct (IH _ _ Hscan k Hk) as [Ha|[Hin Hnl]]; [now left|].
      right. split; [now right | exact Hnl].
    + destruct (String.eqb (instance n) ""); simpl in Hscan; [|discriminate].
      destruct (IH _ _ Hscan k Hk) as [Ha|[Hin Hnl]].
      * apply in_app_or in Ha as [Ha|[<-|[]]]; [now left|].
        right. split; [now left | exact Hl].
      * right. split; [now right | exact Hnl].
Qed.

Lemma scan_removed_raises new_nodes d : forall acc e,
  scan_removed new_nodes d acc = Raise e -> e = NameError.
Proof.
  induction d as [|[h n] r IH]; intros acc e; simpl; [discriminate|].
  destruct (listed h new_nodes); simpl; [apply IH|].
  destruct (String.eqb (instance n) ""); simpl; [apply IH|].
  now intros [= <-].
Qed.

Lemma remove_loop_outcome removed : forall s,
  fst (for_each removed remove_host s) = Return tt
  \/ fst (for_each removed remove_host s) = Raise AttributeError.
Proof.
  induction removed as [|h t IH]; intros s; [now left|].
  rewrite for_each_cons, remove_host_run.
  destruct (db s); [apply IH | now right].
Qed.

Lemma add_loop_outcome l : forall s,
  fst (for_each l add_host s) = Return tt
  \/ fst (for_each l add_host s) = Raise AttributeError
  \/ fst (for_each l add_host s) = Raise IndexError.
Proof.
  induction l as [|h t IH]; intros s; [now left|].
  rewrite for_each_cons, add_host_run.
  destruct (Dict.mem h (nodes s)); [apply IH|].
  destruct (Str.split "-" h) as [|w0 [|w1 [|w2 rest]]];
    try (right; right; reflexivity).
  simpl. destruct (db s); [apply IH | right; now left].
Qed.

Lemma remove_loop_keeps removed : forall s h,
  ~ In h removed ->
  Dict.get h (nodes (snd (for_each removed remove_host s)))
  = Dict.get h (nodes s).
Proof.
  induction removed as [|k t IH]; intros s h Hnin; [reflexivity|].
  rewrite for_each_cons, remove_host_run.
  assert (Hk : String.eqb k h = false).
  { apply String.eqb_neq. intros ->. apply Hnin. now left. }
  destruct (db s).
  - rewrite IH by (intros Hin; apply Hnin; now right).
    simpl. now rewrite get_del, Hk.
  - simpl. now rewrite get_del, Hk.
Qed.

Lemma add_loop_keeps l : forall s h n,
  Dict.get h (nodes s) = Some n ->
  Dict.get h (nodes (snd (for_each l add_host s))) = Some n.
Proof.
  induction l as [|k t IH]; intros s h n Hget; [exact Hget|].
  rewrite for_each_cons.
  assert (Hmid : Dict.get h (nodes (snd (add_host k s))) = Some n).
  { destruct (add_host_step k s) as [->|(Hm & n0 & _ & ->)]; [exact Hget|].
    rewrite get_set. destruct (String.eqb_spec k h) as [->|_]; [|exact Hget].
    apply mem_get_none in Hm. congruence. }
  destruct (add_host k s) as [[[]|e] s1]; [now apply IH | exact Hmid].
Qed.

Lemma remove_loop_env removed : forall s,
  same_env s (snd (for_each removed remove_host s)).
Proof.
  induction removed as [|h t IH]; intros s; [now repeat split|].
  rewrite for_each_cons, remove_host_run.
  destruct (db s); [|now repeat split].
  match goal with |- same_env _ (snd (for_each t remove_host ?s1)) =>
    destruct (IH s1) as (H1 & H2 & H3 & H4 & H5 & H6)
  end.
  repeat split;
    [rewrite H1 | rewrite H2 | rewrite H3 | rewrite H4 | rewrite H5
    | rewrite H6]; reflexivity.
Qed.

Lemma add_loop_env l : forall s,
  same_env s (snd (for_each l add_host s)).
Proof.
  induction l as [|h t IH]; intros s; [now repeat split|].
  rewrite for_each_cons, add_host_run.
  destruct (Dict.mem h (nodes s)); [apply IH|].
  destruct (Str.split "-" h) as [|w0 [|w1 [|w2 rest]]];
    try (now repeat split).
  simpl. destruct (db s); [|now repeat split].
  match goal with |- same_env _ (snd (for_each t add_host ?s1)) =>
    destruct (IH s1) as (H1 & H2 & H3 & H4 & H5 & H6)
  end.
  repeat split;
    [rewrite H1 | rewrite H2 | rewrite H3 | rewrite H4 | rewrite H5
    | rewrite H6]; reflexivity.
Qed.

(** X1. When [rebuild] returns, the hosts of the registry are exactly the
    hosts of the list it was given. *)
Theorem rebuild_keys_are_desired new_nodes s :
  fst (rebuild new_nodes s) = Return tt ->
  forall k, Dict.mem k (nodes (snd (rebuild new_nodes s))) = true
            <-> In k new_nodes.
Proof.
  rewrite rebuild_run.
  destruct (scan_removed new_nodes (nodes s) []) as [removed|e] eqn:Hscan;
    [|discriminate].
  pose proof (remove_loop_done removed s) as Hrm.
  destruct (for_each removed remove_host s) as [[[]|e] s1]; [|discriminate].
  intros Hret k. split.
  - intros Hk. apply add_loop_keys in Hk as [Hk|Hk]; [|exact Hk].
    destruct (Hrm ltac:(discriminate)) as [_ Hkeys].
    apply Hkeys in Hk as [Hk Hnin].
    destruct (listed k new_nodes) eqn:Hl; [now apply listed_in|].
    exfalso. apply Hnin. apply (scan_removed_collects _ _ _ _ Hscan).
    right. split; [now apply mem_in_keys | exact Hl].
  - intros Hin. now apply add_loop_covers.
Qed.

Lemma rebuild_keys_are_desired_witness :
  Dict.mem "rcc-aws-t1"
    (nodes (snd (rebuild ["a"; "rcc-aws-t1"]
                   (Sample.ready [("a", Sample.a_on); ("b", Sample.b_off)]))))
  = true
  <-> In "rcc-aws-t1" ["a"; "rcc-aws-t1"].
Proof.
  apply (rebuild_keys_are_desired ["a"; "rcc-aws-t1"]
           (Sample.ready [("a", Sample.a_on); ("b", Sample.b_off)])).
  reflexivity.
Defined.

(** X2. [rebuild] never touches the row of a host that is in the list:
    whatever the outcome of the call, such a row is afterwards what it was
    before, so a node that is ON keeps its instance, ip and start. *)
Theorem rebuild_keeps_listed_rows new_nodes s h n :
  In h new_nodes -> Dict.get h (nodes s) = Some n ->
  Dict.get h (nodes (snd (rebuild new_nodes s))) = Some n.
Proof.
  intros Hin Hget. rewrite rebuild_run.
  destruct (scan_removed new_nodes (nodes s) []) as [removed|e] eqn:Hscan;
    [|exact Hget].
  assert (Hnin : ~ In h removed).
  { intros Hr.
    destruct (scan_removed_only_unlisted _ _ _ _ Hscan h Hr) as [[]|[_ Hnl]].
    apply listed_in in Hin. congruence. }
  pose proof (remove_loop_keeps removed s h Hnin) as Hrm.
  destruct (for_each removed remove_host s) as [[[]|e] s1]; simpl in Hrm.
  - apply add_loop_keeps. congruence.
  - simpl. congruence.
Qed.

Lemma rebuild_keeps_listed_rows_witness :
  Dict.get "a"
    (nodes (snd (rebuild ["rcc-aws-t1"; "a"]
                   (Sample.ready [("a", Sample.a_on); ("b", Sample.b_off)]))))
  = Some Sample.a_on.
Proof.
  apply rebuild_keeps_listed_rows; [right; now left | reflexivity].
Defined.

(** X3. A listed host that has no row and whose name has fewer than three
    hyphen-separated segments makes [rebuild] fail: the call never returns,
    it ends in [NameError], [AttributeError] or [IndexError]. *)
Theorem rebuild_malformed_host_raises new_nodes s h :
  In h new_nodes -> Dict.mem h (nodes s) = false ->
  length (Str.split "-" h) < 3 ->
  fst (rebuild new_nodes s) = Raise NameError
  \/ fst (rebuild new_nodes s) = Raise AttributeError
  \/ fst (rebuild new_nodes s) = Raise IndexError.
Proof.
  intros Hin Hmem Hlen.
  assert (Hnot : fst (rebuild new_nodes s) <> Return tt).
  { intros Hret.
    assert (Hrow : Dict.mem h (nodes (snd (rebuild new_nodes s))) = true).
    { revert Hret. rewrite rebuild_run.
      destruct (scan_removed new_nodes (nodes s) []) as [removed|e];
        [|discriminate].
      destruct (for_each removed remove_host s) as [[[]|e] s1];
        [|discriminate].
      intros Hret. now apply add_loop_covers. }
    apply mem_get_some in Hrow as [n Hrow]. apply mem_get_none in Hmem.
    destruct (rebuild_new_row _ _ _ _ Hmem Hrow) as (w0 & w1 & w2 & r & Hs & _).
    rewrite Hs in Hlen. simpl in Hlen. lia. }
  revert Hnot. rewrite rebuild_run.
  destruct (scan_removed new_nodes (nodes s) []) as [removed|e] eqn:Hscan.
  - destruct (remove_loop_outcome removed s) as [Hrm|Hrm].
    + destruct (for_each removed remove_host s) as [[[]|e] s1];
        [|discriminate].
      intros Hnot.
      destruct (add_loop_outcome new_nodes s1) as [H|[H|H]];
        [contradiction | right; now left | right; now right].
    + destruct (for_each removed remove_host s) as [[[]|e] s1];
        [discriminate|].
      intros _. right. left. exact Hrm.
  - intros _. left. simpl. now rewrite (scan_removed_raises _ _ _ _ Hscan).
Qed.

Lemma rebuild_malformed_host_raises_witness :
  fst (rebuild ["rcc-aws-t1"; "gpu"] (Sample.ready [])) = Raise NameError
  \/ fst (rebuild ["rcc-aws-t1"; "gpu"] (Sample.ready []))
     = Raise AttributeError
  \/ fst (rebuild ["rcc-aws-t1"; "gpu"] (Sample.ready [])) = Raise IndexError.
Proof.
  apply (rebuild_malformed_host_raises _ _ "gpu");
    [right; now left | reflexivity | simpl; lia].
Defined.

(** X4. [rebuild] takes no lock and regenerates nothing: whatever its
    outcome, the lock and the files [/etc/hosts], [/etc/netgroup] and
    [hosts-base] are what they were. *)
Theorem rebuild_leaves_lock_and_files new_nodes s :
  same_env s (snd (rebuild new_nodes s)).
Proof.
  rewrite rebuild_run.
  destruct (scan_removed new_nodes (nodes s) []) as [removed|e];
    [|now repeat split].
  pose proof (remove_loop_env removed s) as Hrm.
  destruct (for_each removed remove_host s) as [[[]|e] s1]; simpl in Hrm;
    [|exact Hrm].
  destruct Hrm as (H1 & H2 & H3 & H4 & H5 & H6).
  destruct (add_loop_env new_nodes s1) as (K1 & K2 & K3 & K4 & K5 & K6).
  repeat split; congruence.
Qed.

(** ** [power_on], [power_off], [has_node]: rows, hosts and connector calls *)

Lemma keys_set_mem h n d :
  Dict.mem h d = true -> Dict.keys (Dict.set h n d) = Dict.keys d.
Proof.
  unfold Dict.mem, Dict.keys. induction d as [|[k v] r IH]; simpl; [discriminate|].
  destruct (String.eqb_spec k h) as [->|Hne]; simpl; [reflexivity|].
  intros H. now rewrite IH.
Qed.

Lemma update_frame h kw s :
  Dict.keys (nodes (snd (update h kw s))) = Dict.keys (nodes s)
  /\ forall k, k <> h ->
       Dict.get k (nodes (snd (update h kw s))) = Dict.get k (nodes s).
Proof.
  rewrite update_run. destruct (Dict.get h (nodes s)) as [n|] eqn:Hget;
    [|now split].
  assert (Hmem : Dict.mem h (nodes s) = true)
    by (apply mem_get_some; now exists n).
  assert (Hother : forall k, k <> h ->
            Dict.get k (Dict.set h (apply_kwargs kw n) (nodes s))
            = Dict.get k (nodes s)).
  { intros k Hk. rewrite get_set.
    destruct (String.eqb_spec h k); [congruence | reflexivity]. }
  destruct (db s); simpl; (split; [now apply keys_set_mem | exact Hother]).
Qed.

(** [power_off] on its soft-fail path. *)
Lemma power_off_soft h c i now s :
  String.eqb (resolve_host h c i (nodes s)) ""
  || negb (Dict.mem (resolve_host h c i (nodes s)) (nodes s)) = true ->
  power_off h c i now s = (Return "", s).
Proof.
  intros Hsoft. unfold power_off.
  rewrite (bind_return _ _ s (nodes s) s) by reflexivity.
  now rewrite Hsoft.
Qed.

(** [power_off] once a registered host is resolved and the connector is set:
    the row is reset and both connector calls are made before the artifacts
    are regenerated. *)
Lemma power_off_found_run h c i now s n l :
  resolve_host h c i (nodes s) <> "" ->
  Dict.get (resolve_host h c i (nodes s)) (nodes s) = Some n ->
  db s = Some l ->
  power_off h c i now s =
  match
    dump_hosts
      (with_db
         ((l ++ [update_one "node_map" "host" (resolve_host h c i (nodes s))
                   (mk_kwargs "" "" (PyStr "0"))])
            ++ [insert_one "node_journal" (JournalRow (journal_of n now))])
         (with_db
            (l ++ [update_one "node_map" "host" (resolve_host h c i (nodes s))
                     (mk_kwargs "" "" (PyStr "0"))])
            (with_nodes
               (Dict.set (resolve_host h c i (nodes s))
                         (apply_kwargs (mk_kwargs "" "" (PyStr "0")) n)
                         (nodes s)) s)))
  with
  | (Return _, s3) => (Return (instance n), s3)
  | (Raise e, s3) => (Raise e, s3)
  end.
Proof.
  intros Hne Hget Hdb. unfold power_off.
  rewrite (bind_return _ _ s (nodes s) s) by reflexivity.
  set (h' := resolve_host h c i (nodes s)) in *.
  apply String.eqb_neq in Hne. rewrite Hne.
  assert (Hmem : Dict.mem h' (nodes s) = true)
    by (apply mem_get_some; now exists n).
  rewrite Hmem. simpl.
  rewrite (bind_return _ _ s n s) by (unfold getitem; now rewrite Hget).
  rewrite (bind_return _ _ _ _ _ (update_ready h' _ s n l Hget Hdb)).
  match goal with |- context [bind (db_do ?c0) _ ?s1] =>
    rewrite (bind_return (db_do c0) _ s1 tt
               (with_db ((l ++ [update_one "node_map" "host" h'
                                  (mk_kwargs "" "" (PyStr "0"))]) ++ [c0]) s1))
      by reflexivity
  end.
  unfold bind, ret.
  match goal with |- context [dump_hosts ?s2] =>
    destruct (dump_hosts s2) as [[[]|e] s3]
  end; reflexivity.
Qed.

(** [power_on] on a registered host with a connector: the row and the
    connector call come first, the rest is [dump_hosts]. *)
Lemma power_on_found_run h inst addr now s n l :
  Dict.get h (nodes s) = Some n -> db s = Some l ->
  power_on h inst addr now s =
  dump_hosts
    (with_db (l ++ [update_one "node_map" "host" h
                      (mk_kwargs inst addr (PyStr now))])
       (with_nodes
          (Dict.set h (apply_kwargs (mk_kwargs inst addr (PyStr now)) n)
                    (nodes s)) s)).
Proof.
  intros Hget Hdb. unfold power_on.
  rewrite (bind_return _ _ _ _ _ (update_ready h _ s n l Hget Hdb)).
  match goal with |- _ = dump_hosts ?s1 =>
    destruct (dump_hosts s1) as [[[]|e] s2]
  end; reflexivity.
Qed.

(** X5. [power_on] and [power_off] never add, remove or reorder hosts, and
    never change the row of another host, whatever their outcome. *)
Theorem power_keeps_other_hosts s :
  (forall h inst addr now,
     Dict.keys (nodes (snd (power_on h inst addr now s))) = Dict.keys (nodes s)
     /\ forall k, k <> h ->
          Dict.get k (nodes (snd (power_on h inst addr now s)))
          = Dict.get k (nodes s))
  /\ (forall h c i now,
        Dict.keys (nodes (snd (power_off h c i now s))) = Dict.keys (nodes s)
        /\ forall k, k <> resolve_host h c i (nodes s) ->
             Dict.get k (nodes (snd (power_off h c i now s)))
             = Dict.get k (nodes s)).
Proof.
  split.
  - intros h inst addr now. rewrite power_on_nodes. apply update_frame.
  - intros h c i now.
    destruct (String.eqb (resolve_host h c i (nodes s)) ""
              || negb (Dict.mem (resolve_host h c i (nodes s)) (nodes s)))
      eqn:Hsoft.
    + rewrite (power_off_soft _ _ _ _ _ Hsoft). now split.
    + apply orb_false_elim in Hsoft as [Hne Hmem].
      apply String.eqb_neq in Hne. apply negb_false_iff in Hmem.
      rewrite (power_off_nodes h c i now s Hne Hmem). apply update_frame.
Qed.

(** X6. On a host that has no row, [power_on] and [has_node] raise
    [KeyError] and change nothing: no row is created, no connector call is
    made, no artifact is regenerated. *)
Theorem unknown_host_is_key_error s h :
  Dict.mem h (nodes s) = false ->
  (forall inst addr now, power_on h inst addr now s = (Raise KeyError, s))
  /\ has_node h s = (Raise KeyError, s).
Proof.
  intros Hmem. apply mem_get_none in Hmem. split.
  - intros inst addr now. unfold power_on.
    apply bind_raise. now rewrite update_run, Hmem.
  - unfold has_node. apply bind_raise. unfold getitem. now rewrite Hmem.
Qed.

Lemma unknown_host_is_key_error_witness :
  has_node "ghost" (Sample.ready [("a", Sample.a_on)])
  = (Raise KeyError, Sample.ready [("a", Sample.a_on)]).
Proof.
  exact (proj2 (unknown_host_is_key_error
                  (Sample.ready [("a", Sample.a_on)]) "ghost" eq_refl)).
Defined.

(** X7. A [power_off] that resolves a registered host makes exactly two
    connector calls, in this order: the update that resets the row, then the
    insert of one journal row holding the instance and start the node had
    before the reset and the current time as end. Both are made before the
    artifacts are regenerated, so they are there even when [dump_hosts]
    raises. *)
Theorem power_off_journals_once h c i now s n l :
  resolve_host h c i (nodes s) <> "" ->
  Dict.get (resolve_host h c i (nodes s)) (nodes s) = Some n ->
  db s = Some l ->
  db (snd (power_off h c i now s))
  = Some (l ++ [update_one "node_map" "host" (resolve_host h c i (nodes s))
                  (mk_kwargs "" "" (PyStr "0"));
                insert_one "node_journal"
                  (JournalRow
                     (mk_journal (host n) (cloud n) (type n) (account n)
                                 (instance n) (start n) now))])%list.
Proof.
  intros Hne Hget Hdb.
  rewrite (power_off_found_run h c i now s n l Hne Hget Hdb).
  match goal with |- context [dump_hosts ?s2] =>
    pose proof (dump_hosts_frame s2) as [_ Hd];
    destruct (dump_hosts s2) as [[[]|e] s3]
  end; simpl in *; rewrite Hd, <- app_assoc; reflexivity.
Qed.

Lemma power_off_journals_once_witness :
  db (snd (power_off "a" None None "1700003600"
             (mk_NodeMap (Some "/var/lock/skyway") lock_granted Unset [("a", Sample.a_on)]
                         (Some []) None Sample.rw Sample.rw)))
  = Some [update_one "node_map" "host" "a" (mk_kwargs "" "" (PyStr "0"));
          insert_one "node_journal"
            (JournalRow (mk_journal "a" "aws" "t1" "rcc-aws" "i-1"
                                    (PyStr "1700000000") "1700003600"))].
Proof.
  apply (power_off_journals_once "a" None None "1700003600"
           (mk_NodeMap (Some "/var/lock/skyway") lock_granted Unset [("a", Sample.a_on)]
                       (Some []) None Sample.rw Sample.rw)
           Sample.a_on []);
    [discriminate | reflexivity | reflexivity].
Defined.

(** X8. [power_on] on a registered host makes exactly one connector call,
    the update of the three power fields, and none on the journal, also when
    the node was already ON: the instance it overwrites is recorded
    nowhere. *)
Theorem power_on_updates_once h inst addr now s n l :
  Dict.get h (nodes s) = Some n -> db s = Some l ->
  db (snd (power_on h inst addr now s))
  = Some (l ++ [update_one "node_map" "host" h
                  (mk_kwargs inst addr (PyStr now))])%list.
Proof.
  intros Hget Hdb. rewrite (power_on_found_run h inst addr now s n l Hget Hdb).
  now rewrite (proj2 (dump_hosts_frame _)).
Qed.

Lemma power_on_updates_once_witness :
  db (snd (power_on "a" "i-2" "10.0.0.2" "1700003600"
             (Sample.ready [("a", Sample.a_on)])))
  = Some [update_one "node_map" "host" "a"
            (mk_kwargs "i-2" "10.0.0.2" (PyStr "1700003600"))].
Proof.
  apply (power_on_updates_once "a" "i-2" "10.0.0.2" "1700003600"
           (Sample.ready [("a", Sample.a_on)]) Sample.a_on []);
    reflexivity.
Defined.

Lemma get_in_dict k d n : Dict.get k d = Some n -> In (k, n) d.
Proof.
  induction d as [|[k' v] r IH]; simpl; [discriminate|].
  destruct (String.eqb_spec k' k) as [->|_].
  - intros [= ->]. now left.
  - intros H. right. now apply IH.
Qed.

(** The scan of [power_off] stops at the first node, in registry order,
    that has the cloud and the instance looked for. *)
Lemma find_host_first c i pre hostname n post :
  forallb (fun e => negb (String.eqb (cloud (snd e)) c
                          && String.eqb (instance (snd e)) i)) pre = true ->
  cloud n = c -> instance n = i ->
  find_host c i (pre ++ (hostname, n) :: post)%list = Some hostname.
Proof.
  intros Hpre Hc Hi. induction pre as [|[k v] r IH]; simpl in *.
  - now rewrite Hc, Hi, !String.eqb_refl.
  - apply andb_true_iff in Hpre as [Hkv Hr].
    apply negb_true_iff in Hkv. rewrite Hkv. now apply IH.
Qed.

(** With distinct keys, an entry of the dict is the row of its key. *)
Lemma get_of_entry pre k v post :
  NoDup (Dict.keys (pre ++ (k, v) :: post)%list) ->
  Dict.get k (pre ++ (k, v) :: post)%list = Some v.
Proof.
  induction pre as [|[k' v'] r IH]; simpl; intros Hnd.
  - now rewrite String.eqb_refl.
  - inversion Hnd as [|? ? Hnin Hnd']; subst.
    destruct (String.eqb_spec k' k) as [->|_]; [|now apply IH].
    exfalso. apply Hnin. unfold Dict.keys. rewrite map_app.
    apply in_or_app. right. now left.
Qed.

(** X9. Called with a cloud and an instance, [power_off] acts on the first
    node in registry order that has both, whatever host argument it was
    given: for a dict with distinct keys, when that node's host name is not
    empty and the map has a connector, a grantable lock and usable files,
    the call returns that instance, resets that node's row and leaves every
    other row, later matches included, as it was. *)
Theorem power_off_by_instance h c i now s pre hostname n post :
  NoDup (Dict.keys (nodes s)) ->
  nodes s = (pre ++ (hostname, n) :: post)%list ->
  forallb (fun e => negb (String.eqb (cloud (snd e)) c
                          && String.eqb (instance (snd e)) i)) pre = true ->
  cloud n = c -> instance n = i ->
  hostname <> "" -> usable s -> db s <> None ->
  fst (power_off h (Some c) (Some i) now s) = Return i
  /\ Dict.get hostname (nodes (snd (power_off h (Some c) (Some i) now s)))
     = Some (mk_node (host n) (cloud n) (type n) (account n)
                     "" "" (PyStr "0"))
  /\ forall k, k <> hostname ->
       Dict.get k (nodes (snd (power_off h (Some c) (Some i) now s)))
       = Dict.get k (nodes s).
Proof.
  intros Hnd Hnodes Hpre Hc Hi Hne Hu Hdb.
  assert (Hfind : find_host c i (nodes s) = Some hostname)
    by (rewrite Hnodes; now apply find_host_first).
  assert (Hget : Dict.get hostname (nodes s) = Some n)
    by (rewrite Hnodes in *; now apply get_of_entry).
  destruct (db s) as [l|] eqn:Hl; [|now contradiction Hdb].
  assert (Hres : resolve_host h (Some c) (Some i) (nodes s) = hostname)
    by (unfold resolve_host; now rewrite Hfind).
  assert (Hmem : Dict.mem hostname (nodes s) = true)
    by (apply mem_get_some; now exists n).
  pose proof (power_off_nodes h (Some c) (Some i) now s) as Hn.
  cbv zeta in Hn. rewrite Hres in Hn. specialize (Hn Hne Hmem).
  split; [|split].
  - rewrite (power_off_found_run h (Some c) (Some i) now s n l);
      rewrite ?Hres; try assumption.
    match goal with |- context [dump_hosts ?s2] =>
      destruct (dump_hosts_ready s2 Hu) as (s3 & Hrun & _)
    end.
    rewrite Hrun. simpl. now rewrite Hi.
  - rewrite Hn, (update_row hostname _ s n Hget). reflexivity.
  - intros k Hk. rewrite Hn. now apply update_frame.
Qed.

Lemma power_off_by_instance_witness :
  fst (power_off "b" (Some "aws") (Some "i-1") "1700003600"
         (Sample.ready [("b", Sample.b_off); ("a", Sample.a_on);
                        ("z", Sample.a_on)]))
  = Return "i-1"
  /\ Dict.get "a"
       (nodes (snd (power_off "b" (Some "aws") (Some "i-1") "1700003600"
                      (Sample.ready [("b", Sample.b_off); ("a", Sample.a_on);
                                     ("z", Sample.a_on)]))))
     = Some (mk_node "a" "aws" "t1" "rcc-aws" "" "" (PyStr "0"))
  /\ forall k, k <> "a" ->
       Dict.get k
         (nodes (snd (power_off "b" (Some "aws") (Some "i-1") "1700003600"
                        (Sample.ready [("b", Sample.b_off);
                                       ("a", Sample.a_on);
                                       ("z", Sample.a_on)]))))
       = Dict.get k [("b", Sample.b_off); ("a", Sample.a_on);
                     ("z", Sample.a_on)].
Proof.
  apply (power_off_by_instance "b" "aws" "i-1" "1700003600"
           (Sample.ready [("b", Sample.b_off); ("a", Sample.a_on);
                          ("z", Sample.a_on)])
           [("b", Sample.b_off)] "a" Sample.a_on [("z", Sample.a_on)]);
    [ repeat constructor; simpl; intuition discriminate
    | reflexivity | reflexivity | reflexivity | reflexivity | discriminate
    | repeat split; discriminate | discriminate ].
Defined.

(** X10. [has_node] follows the power operations on a registered host, with
    or without a connector: after [power_on] it answers whether the instance
    given was non-empty, after [power_off] by host name it answers False. *)
Theorem has_node_follows_power s h :
  Dict.mem h (nodes s) = true ->
  (forall inst addr now,
     fst (has_node h (snd (power_on h inst addr now s)))
     = Return (negb (String.eqb inst "")))
  /\ (h <> "" ->
      forall now,
        fst (has_node h (snd (power_off h None None now s))) = Return false).
Proof.
  intros Hmem. pose proof Hmem as Hm. apply mem_get_some in Hm as [n Hget].
  split.
  - intros inst addr now. unfold has_node, bind, getitem.
    rewrite power_on_nodes, (update_row h _ s n Hget). reflexivity.
  - intros Hne now. unfold has_node, bind, getitem.
    pose proof (power_off_nodes h None None now s) as Hn.
    cbv zeta in Hn. unfold resolve_host in Hn.
    rewrite (Hn Hne Hmem), (update_row h _ s n Hget). reflexivity.
Qed.

Lemma has_node_follows_power_witness :
  fst (has_node "b" (snd (power_on "b" "i-7" "10.0.0.7" "1700003600"
                            (Sample.ready [("b", Sample.b_off)]))))
  = Return (negb (String.eqb "i-7" "")).
Proof.
  exact (proj1 (has_node_follows_power
                  (Sample.ready [("b", Sample.b_off)]) "b" eq_refl)
               "i-7" "10.0.0.7" "1700003600").
Defined.

(** X11. With the class attribute [lock_file] left at its default [None],
    [power_on] on a registered host updates the row and calls the connector,
    then raises [TypeError] in [lock]: the artifacts, the lock and the files
    are untouched. *)
Theorem power_on_without_lock_file h inst addr now s n l :
  lock_file s = None -> Dict.get h (nodes s) = Some n -> db s = Some l ->
  power_on h inst addr now s
  = (Raise TypeError,
     with_db (l ++ [update_one "node_map" "host" h
                      (mk_kwargs inst addr (PyStr now))])
       (with_nodes
          (Dict.set h (apply_kwargs (mk_kwargs inst addr (PyStr now)) n)
                    (nodes s)) s)).
Proof.
  intros Hlf Hget Hdb.
  rewrite (power_on_found_run h inst addr now s n l Hget Hdb).
  rewrite dump_hosts_run. simpl. now rewrite Hlf.
Qed.

Lemma power_on_without_lock_file_witness :
  fst (power_on "b" "i-7" "10.0.0.7" "1700003600"
         (mk_NodeMap None lock_granted Unset [("b", Sample.b_off)] (Some [])
                     (Some "") Sample.rw Sample.rw))
  = Raise TypeError.
Proof.
  rewrite (power_on_without_lock_file "b" "i-7" "10.0.0.7" "1700003600"
             (mk_NodeMap None lock_granted Unset [("b", Sample.b_off)] (Some [])
                         (Some "") Sample.rw Sample.rw)
             Sample.b_off [] eq_refl eq_refl eq_refl).
  reflexivity.
Defined.

(** ** The artifacts written by [dump_hosts] *)


(** X12. After a [power_on] that returns, [/etc/hosts] is the content of
    [hosts-base] followed by lines among which is [<ip> <host>] for the host
    just powered on with a non-empty ip. *)
Theorem power_on_listed_in_hosts h inst addr now s :
  fst (power_on h inst addr now s) = Return tt -> addr <> "" ->
  forallb one_line (nodes (snd (power_on h inst addr now s))) = true ->
  exists base body,
    hosts_base s = Some base
    /\ content (etc_hosts (snd (power_on h inst addr now s))) = base ++ body
    /\ In (addr ++ " " ++ h) (Str.split "010"%char body).
Proof.
  intros Hret Haddr Hall.
  destruct (Dict.get h (nodes s)) as [n|] eqn:Hget.
  2:{ exfalso. revert Hret. unfold power_on.
      rewrite (bind_raise _ _ s KeyError s); [discriminate|].
      now rewrite update_run, Hget. }
  destruct (db s) as [l|] eqn:Hl.
  2:{ exfalso. revert Hret. unfold power_on.
      now rewrite (bind_raise _ _ _ _ _
                     (update_unset_known s Hl h _ n Hget)). }
  revert Hret Hall.
  rewrite (power_on_found_run h inst addr now s n l Hget Hl).
  set (n' := apply_kwargs (mk_kwargs inst addr (PyStr now)) n).
  set (s1 := with_db _ _).
  rewrite (proj1 (dump_hosts_frame s1)). intros Hret Hall.
  destruct (dump_hosts_returned s1 Hret) as (base & Hb & _ & Hh & _).
  exists base, (Str.join Str.newline (map hosts_line (nodes s1)) ++ Str.newline).
  split; [exact Hb|]. split; [now rewrite Hh|].
  assert (Hin : In (h, n') (nodes s1)).
  { apply get_in_dict. subst s1. simpl. now rewrite get_set, String.eqb_refl. }
  rewrite hosts_text_lines;
    [|intros E; rewrite E in Hin; destruct Hin | exact Hall].
  apply in_or_app. left. apply in_map_iff. exists (h, n').
  split; [|exact Hin]. unfold hosts_line. simpl.
  apply String.eqb_neq in Haddr. now rewrite Haddr.
Qed.

Lemma power_on_listed_in_hosts_witness :
  exists base body,
    hosts_base (Sample.ready [("a", Sample.a_on); ("b", Sample.b_off)])
    = Some base
    /\ content (etc_hosts (snd (power_on "b" "i-7" "10.0.0.7" "1700003600"
                  (Sample.ready [("a", Sample.a_on); ("b", Sample.b_off)]))))
       = base ++ body
    /\ In ("10.0.0.7" ++ " " ++ "b") (Str.split "010"%char body).
Proof.
  apply power_on_listed_in_hosts; [reflexivity | discriminate | reflexivity].
Defined.

Lemma netgroup_tuple_no_space e :
  Str.lacks " "%char (ip (snd e)) = true ->
  Str.lacks " "%char (netgroup_tuple e) = true.
Proof.
  intros H. unfold netgroup_tuple. simpl. rewrite lacks_app, H. reflexivity.
Qed.

(** X13. When [dump_hosts] returns, [/etc/netgroup] is the group name
    [skyway] followed by one tuple [(<ip>,,)] per node with a non-empty ip,
    in registry order, and nothing for the nodes without one; with no such
    node the line holds the group name alone. *)
Theorem netgroup_artifact_tuples s :
  fst (dump_hosts s) = Return tt ->
  forallb (fun e => Str.lacks " "%char (ip (snd e))) (nodes s) = true ->
  exists body,
    content (etc_netgroup (snd (dump_hosts s)))
    = "skyway    " ++ body ++ Str.newline
    /\ match filter (fun e => negb (String.eqb (ip (snd e)) "")) (nodes s) with
       | [] => body = ""
       | e :: r => Str.split " "%char body = map netgroup_tuple (e :: r)
       end.
Proof.
  intros Hret Hall.
  exists (Str.join " "
            (map netgroup_tuple
                 (filter (fun e => negb (String.eqb (ip (snd e)) ""))
                         (nodes s)))).
  split.
  - destruct (dump_hosts_returned s Hret) as (base & _ & _ & _ & Hn & _).
    now rewrite Hn.
  - assert (Hon : Forall (fun x => Str.lacks " "%char x = true)
                    (map netgroup_tuple
                       (filter (fun e => negb (String.eqb (ip (snd e)) ""))
                               (nodes s)))).
    { apply Forall_forall. intros x Hx. apply in_map_iff in Hx as [e [<- He]].
      apply netgroup_tuple_no_space. apply filter_In in He as [He _].
      rewrite forallb_forall in Hall. now apply Hall. }
    destruct (filter _ (nodes s)) as [|e r]; [reflexivity|].
    apply (split_join " "%char); [discriminate | exact Hon].
Qed.

Lemma netgroup_artifact_tuples_witness :
  exists body,
    content (etc_netgroup (snd (dump_hosts
      (Sample.ready [("a", Sample.a_on); ("b", Sample.b_off)]))))
    = "skyway    " ++ body ++ Str.newline
    /\ Str.split " "%char body = ["(10.0.0.1,,)"].
Proof.
  apply (netgroup_artifact_tuples
           (Sample.ready [("a", Sample.a_on); ("b", Sample.b_off)]));
    reflexivity.
Defined.

(** X14. [dump_hosts] writes [/etc/hosts] before [/etc/netgroup]: when the
    lock is granted, the base file is read and [/etc/hosts] is written but
    [/etc/netgroup] cannot be opened for writing, the call raises [OSError]
    with [/etc/hosts] already rewritten from the registry, [/etc/netgroup] as
    it was, and the lock held. *)
Theorem dump_hosts_netgroup_failure s lf base :
  lock_file s = Some lf -> lock_env s = lock_granted ->
  hosts_base s = Some base ->
  writable (etc_hosts s) = true -> writable (etc_netgroup s) = false ->
  fst (dump_hosts s) = Raise OSError
  /\ content (etc_hosts (snd (dump_hosts s))) = hosts_text base (nodes s)
  /\ etc_netgroup (snd (dump_hosts s)) = etc_netgroup s
  /\ __lock (snd (dump_hosts s)) = Locked.
Proof.
  intros Hlf He Hb Hh Hn. rewrite dump_hosts_run, Hlf, He, Hb, Hh. simpl.
  rewrite Hn. now repeat split.
Qed.

Lemma dump_hosts_netgroup_failure_witness :
  fst (dump_hosts (mk_NodeMap (Some "/var/lock/skyway") lock_granted Unset
                     [("a", Sample.a_on)] (Some []) (Some "") Sample.rw
                     (mk_file false "old")))
  = Raise OSError
  /\ content (etc_hosts (snd (dump_hosts
        (mk_NodeMap (Some "/var/lock/skyway") lock_granted Unset
           [("a", Sample.a_on)] (Some []) (Some "") Sample.rw
           (mk_file false "old")))))
     = hosts_text "" [("a", Sample.a_on)]
  /\ etc_netgroup (snd (dump_hosts
        (mk_NodeMap (Some "/var/lock/skyway") lock_granted Unset
           [("a", Sample.a_on)] (Some []) (Some "") Sample.rw
           (mk_file false "old"))))
     = mk_file false "old"
  /\ __lock (snd (dump_hosts
        (mk_NodeMap (Some "/var/lock/skyway") lock_granted Unset
           [("a", Sample.a_on)] (Some []) (Some "") Sample.rw
           (mk_file false "old"))))
     = Locked.
Proof.
  apply (dump_hosts_netgroup_failure
           (mk_NodeMap (Some "/var/lock/skyway") lock_granted Unset
              [("a", Sample.a_on)] (Some []) (Some "") Sample.rw
              (mk_file false "old"))
           "/var/lock/skyway" ""); reflexivity.
Defined.
